(** * SLB: economic comparison of an EV charger with second-life batteries
      against a grid-only charger

    Shallow embedding of the three script variants of the repository:
    - [V3]  : [V3.py], discounted series only;
    - [V4]  : first script of [v4.py] (lines 1-111), adds the nominal series
              and the IRR / NPV / payback metrics;
    - [V5]  : second script of [v4.py] (lines 114-234, headed "v5 (1).py"),
              adds feed-in revenue and the crossover year.

    Numbers: the scripts compute on Python floats, IEEE 754 binary64.  They
    are embedded twice.  In [V3], [V4] and [V5] every number is an exact
    rational ([Q], compared with [==]); [x / 0] is [0] in [Q], and the
    scripts divide by a power of [1 + discount_rate], which is not zero
    for the rates the sidebar admits (0..20 percent).  In [F64] the same
    expressions are evaluated on binary64 numbers, rounding included: that
    module settles, at concrete inputs, what an identity of exact
    arithmetic becomes once every operation rounds.

    The streamlit widgets, the chart and the table are not modelled: a run
    of a script is a function of the record of values read from the
    sidebar. *)

From Stdlib Require Import QArith Qpower Qfield Lia Lqa List Bool Arith ZArith.
From Stdlib Require Import Floats.PrimFloat Floats.FloatOps Floats.SpecFloat.
Import ListNotations.

Open Scope Q_scope.

(** ** Values read from the sidebar *)

Record Params : Type := mkParams {
  analysis_years         : nat;
  discount_rate          : Q;
  inflation_rate         : Q;
  residual_value_percent : Q;
  ev_battery_capacity    : Q;
  ev_charge_percent      : Q;
  ev_charging_sessions   : Q;
  ev_days_no_charging    : Q;   (* second script of v4.py only *)
  feed_in_efficiency     : Q;   (* second script of v4.py only *)
  slb_capex_pv           : Q;
  slb_capex_battery      : Q;
  slb_opex               : Q;
  electricity_price      : Q
}.

(** Two runs that differ in one sidebar value only. *)
Definition set_discount_rate (d : Q) (p : Params) : Params :=
  mkParams (analysis_years p) d (inflation_rate p)
           (residual_value_percent p) (ev_battery_capacity p)
           (ev_charge_percent p) (ev_charging_sessions p)
           (ev_days_no_charging p) (feed_in_efficiency p)
           (slb_capex_pv p) (slb_capex_battery p) (slb_opex p)
           (electricity_price p).

Definition set_slb_opex (o : Q) (p : Params) : Params :=
  mkParams (analysis_years p) (discount_rate p) (inflation_rate p)
           (residual_value_percent p) (ev_battery_capacity p)
           (ev_charge_percent p) (ev_charging_sessions p)
           (ev_days_no_charging p) (feed_in_efficiency p)
           (slb_capex_pv p) (slb_capex_battery p) o
           (electricity_price p).

(** The defaults of the widgets (percent fields already divided by 100,
    as the scripts do on reading them). *)
Definition default_params : Params :=
  mkParams 15 (8 # 100) (3 # 100) (10 # 100) 40 80 10 10 (90 # 100)
           15000 10000 500 (25 # 100).

(** ** Python and numpy primitives used by the scripts *)

(** [l[-1] += x] : in-place addition on the last element. *)
Fixpoint add_last (x : Q) (l : list Q) : list Q :=
  match l with
  | [] => []
  | [a] => [a + x]
  | a :: l' => a :: add_last x l'
  end.

(** [np.cumsum]: running sums, the first entry being the first element. *)
Fixpoint cumsum_from (acc : Q) (l : list Q) : list Q :=
  match l with
  | [] => []
  | x :: l' => (acc + x) :: cumsum_from (acc + x) l'
  end.

Definition cumsum (l : list Q) : list Q :=
  match l with
  | [] => []
  | x :: l' => x :: cumsum_from x l'
  end.

(** [np.arange(1, analysis_years + 1)] *)
Definition years (p : Params) : list nat := seq 1 (analysis_years p).

(** [b ** e] for an integer exponent. *)
Definition pow (b : Q) (e : Z) : Q := b ^ e.

(** Outcome of a Python call: a value, or a raised exception. *)
Inductive exn : Type :=
| AttributeError
| ValueError
| LinAlgError
| OtherError.

Inductive result (A : Type) : Type :=
| Ok (a : A)
| Raise (e : exn).
Arguments Ok {A} a.
Arguments Raise {A} e.

Definition bind {A B : Type} (c : result A) (k : A -> result B) : result B :=
  match c with
  | Ok a => k a
  | Raise e => Raise e
  end.

(** [try: c  except: h] with a bare [except]. *)
Definition try_except {A : Type} (c : result A) (h : result A) : result A :=
  match c with
  | Ok a => Ok a
  | Raise _ => h
  end.

Declare Scope py_scope.
Delimit Scope py_scope with py.
Notation "x <- c ;; k" := (bind c (fun x => k))
  (at level 61, c at next level, right associativity) : py_scope.

(** What [irr] of numpy / numpy_financial hands back when it returns:
    a rate, or the float [nan]. *)
Inductive irr_value : Type :=
| Rate (r : Q)
| NotANumber.

(** ** Metric functions, shared by the two scripts of v4.py *)

(** [calculate_payback]: the loop carries [cumulative] and the index [i]. *)
Fixpoint payback_loop (cumulative : Q) (i : nat) (cashflows : list Q)
  : option nat :=
  match cashflows with
  | [] => None
  | val :: rest =>
      let cumulative := cumulative + val in
      if Qle_bool 0 cumulative then Some i
      else payback_loop cumulative (S i) rest
  end.

Definition calculate_payback (cashflows : list Q) : option nat :=
  payback_loop 0 0%nat cashflows.

(** [a > b] on numbers. *)
Definition Qgtb (a b : Q) : bool := negb (Qle_bool a b).

(** [calculate_crossover]: [enumerate(zip(results_slb, results_ongrid))]. *)
Fixpoint crossover_loop (year : nat) (zipped : list (Q * Q)) : option nat :=
  match zipped with
  | [] => None
  | (slb_value, ongrid_value) :: rest =>
      if Qgtb slb_value ongrid_value then Some year
      else crossover_loop (S year) rest
  end.

Definition calculate_crossover (results_slb results_ongrid : list Q)
  : option nat :=
  crossover_loop 0%nat (combine results_slb results_ongrid).

(** Modelled from the spec: [npf.npv] / [np.npv] belong to numpy, not to the
    repository; section 4.3 gives
    [sum(cashflow[y] / (1+rate)^y) for y = 0..N]. *)
Fixpoint npv_from (rate : Q) (y : nat) (cashflows : list Q) : Q :=
  match cashflows with
  | [] => 0
  | c :: rest => c / pow (1 + rate) (Z.of_nat y) + npv_from rate (S y) rest
  end.

Definition calculate_npv (cashflows : list Q) (rate : Q) : Q :=
  npv_from rate 0%nat cashflows.

(** [try: return npf.irr(cashflows)  except: return None].  The root finder
    of the library, [lib_irr], is a parameter: it returns a rate or [nan],
    or raises. *)
Definition calculate_irr (lib_irr : list Q -> result irr_value)
  (cashflows : list Q) : result (option irr_value) :=
  try_except (r <- lib_irr cashflows ;; Ok (Some r))%py (Ok None).

(** ** Quantities derived from the sidebar values, common to the scripts *)

Definition monthly_consumption (p : Params) : Q :=
  ev_battery_capacity p * (ev_charge_percent p / 100) * ev_charging_sessions p.

Definition annual_energy (p : Params) : Q := monthly_consumption p * 12.

Definition slb_total_capex (p : Params) : Q :=
  slb_capex_pv p + slb_capex_battery p.

Definition residual_value (p : Params) : Q :=
  residual_value_percent p * slb_total_capex p.

Definition escalated_cost (p : Params) (year : nat) : Q :=
  (electricity_price p * pow (1 + inflation_rate p) (Z.of_nat year - 1))
  * annual_energy p.

(** [for year in years: ... l.append(f(year))], from the list [init]. *)
Definition append_loop (f : nat -> Q) (init : list Q) (ys : list nat)
  : list Q :=
  fold_left (fun l year => l ++ [f year]) ys init.

(** The same loop appending to two lists at once. *)
Definition append_loop2 (f g : nat -> Q) (init : list Q * list Q)
  (ys : list nat) : list Q * list Q :=
  fold_left (fun st year => (fst st ++ [f year], snd st ++ [g year])) ys init.

(** ** V3.py *)

Module V3.

Definition cashflow (p : Params) (year : nat) : Q :=
  escalated_cost p year / pow (1 + discount_rate p) (Z.of_nat year)
  - slb_opex p / pow (1 + discount_rate p) (Z.of_nat year).

Definition fc_slb (p : Params) : list Q :=
  let fc_slb := append_loop (cashflow p) [- slb_total_capex p] (years p) in
  add_last
    (residual_value p / pow (1 + discount_rate p) (Z.of_nat (analysis_years p)))
    fc_slb.

Definition ongrid_cashflow (p : Params) (year : nat) : Q :=
  - escalated_cost p year / pow (1 + discount_rate p) (Z.of_nat year).

Definition fc_ongrid (p : Params) : list Q :=
  append_loop (ongrid_cashflow p) [0] (years p).

Definition results_slb (p : Params) : list Q := cumsum (fc_slb p).
Definition results_ongrid (p : Params) : list Q := cumsum (fc_ongrid p).

End V3.

(** ** v4.py, first script (lines 1-111) *)

Module V4.

Definition cashflow (p : Params) (year : nat) : Q :=
  escalated_cost p year - slb_opex p.

Definition discounted_cashflow (p : Params) (year : nat) : Q :=
  cashflow p year / pow (1 + discount_rate p) (Z.of_nat year).

(** The loop of lines 44-49: the pair [(fc_slb, slb_cashflows)]. *)
Definition slb_loop (p : Params) : list Q * list Q :=
  append_loop2 (discounted_cashflow p) (cashflow p)
    ([- slb_total_capex p], [- slb_total_capex p]) (years p).

Definition fc_slb (p : Params) : list Q :=
  add_last
    (residual_value p / pow (1 + discount_rate p) (Z.of_nat (analysis_years p)))
    (fst (slb_loop p)).

Definition slb_cashflows (p : Params) : list Q :=
  add_last (residual_value p) (snd (slb_loop p)).

Definition ongrid_discounted (p : Params) (year : nat) : Q :=
  - escalated_cost p year / pow (1 + discount_rate p) (Z.of_nat year).

Definition ongrid_loop (p : Params) : list Q * list Q :=
  append_loop2 (ongrid_discounted p) (fun year => - escalated_cost p year)
    ([0], [0]) (years p).

Definition fc_ongrid (p : Params) : list Q := fst (ongrid_loop p).
Definition ongrid_cashflows (p : Params) : list Q := snd (ongrid_loop p).

Definition results_slb (p : Params) : list Q := cumsum (fc_slb p).
Definition results_ongrid (p : Params) : list Q := cumsum (fc_ongrid p).

(** Lines 84-90. *)
Definition irr_slb (lib_irr : list Q -> result irr_value) (p : Params)
  : result (option irr_value) :=
  calculate_irr lib_irr (slb_cashflows p).

Definition npv_slb (p : Params) : Q :=
  calculate_npv (slb_cashflows p) (discount_rate p).

Definition pb_slb (p : Params) : option nat :=
  calculate_payback (slb_cashflows p).

Definition irr_ongrid (lib_irr : list Q -> result irr_value) (p : Params)
  : result (option irr_value) :=
  calculate_irr lib_irr (ongrid_cashflows p).

Definition npv_ongrid (p : Params) : Q :=
  calculate_npv (ongrid_cashflows p) (discount_rate p).

Definition pb_ongrid (p : Params) : option nat :=
  calculate_payback (ongrid_cashflows p).

End V4.

(** ** v4.py, second script (lines 114-234): feed-in revenue, crossover *)

Module V5.

Definition feed_in_tariff (p : Params) : Q := (7 # 10) * electricity_price p.

Definition energy_for_sale_per_month (p : Params) : Q :=
  ev_battery_capacity p * (1 - ev_charge_percent p / 100)
  * ev_days_no_charging p * feed_in_efficiency p.

Definition annual_revenue_from_feed_in (p : Params) : Q :=
  energy_for_sale_per_month p * 12 * feed_in_tariff p.

Definition escalated_revenue (p : Params) (year : nat) : Q :=
  (feed_in_tariff p * pow (1 + inflation_rate p) (Z.of_nat year - 1))
  * energy_for_sale_per_month p * 12.

Definition cashflow (p : Params) (year : nat) : Q :=
  (escalated_cost p year + escalated_revenue p year) - slb_opex p.

Definition discounted_cashflow (p : Params) (year : nat) : Q :=
  cashflow p year / pow (1 + discount_rate p) (Z.of_nat year).

(** The loop of lines 162-168: the pair [(fc_slb, slb_cashflows)]. *)
Definition slb_loop (p : Params) : list Q * list Q :=
  append_loop2 (discounted_cashflow p) (cashflow p)
    ([- slb_total_capex p], [- slb_total_capex p]) (years p).

Definition fc_slb (p : Params) : list Q :=
  add_last
    (residual_value p / pow (1 + discount_rate p) (Z.of_nat (analysis_years p)))
    (fst (slb_loop p)).

Definition slb_cashflows (p : Params) : list Q :=
  add_last (residual_value p) (snd (slb_loop p)).

Definition ongrid_discounted (p : Params) (year : nat) : Q :=
  - escalated_cost p year / pow (1 + discount_rate p) (Z.of_nat year).

(** The loop of lines 177-181: the pair [(fc_ongrid, ongrid_cashflows)]. *)
Definition ongrid_loop (p : Params) : list Q * list Q :=
  append_loop2 (ongrid_discounted p) (fun year => - escalated_cost p year)
    ([0], [0]) (years p).

Definition fc_ongrid (p : Params) : list Q := fst (ongrid_loop p).
Definition ongrid_cashflows (p : Params) : list Q := snd (ongrid_loop p).

(** The two columns of [results]. *)
Definition results_slb (p : Params) : list Q := cumsum (fc_slb p).
Definition results_ongrid (p : Params) : list Q := cumsum (fc_ongrid p).

(** Lines 208-216, one definition per variable of the script. *)
Definition irr_slb (lib_irr : list Q -> result irr_value) (p : Params)
  : result (option irr_value) :=
  calculate_irr lib_irr (slb_cashflows p).

Definition npv_slb (p : Params) : Q :=
  calculate_npv (slb_cashflows p) (discount_rate p).

Definition pb_slb (p : Params) : option nat :=
  calculate_payback (slb_cashflows p).

Definition irr_ongrid (lib_irr : list Q -> result irr_value) (p : Params)
  : result (option irr_value) :=
  calculate_irr lib_irr (ongrid_cashflows p).

Definition npv_ongrid (p : Params) : Q :=
  calculate_npv (ongrid_cashflows p) (discount_rate p).

Definition pb_ongrid (p : Params) : option nat :=
  calculate_payback (ongrid_cashflows p).

Definition crossover_point (p : Params) : option nat :=
  calculate_crossover (results_slb p) (results_ongrid p).

(** What the script holds once line 216 has run. *)
Record Metrics : Type := mkMetrics {
  m_irr_slb         : option irr_value;
  m_npv_slb         : Q;
  m_pb_slb          : option nat;
  m_irr_ongrid      : option irr_value;
  m_npv_ongrid      : Q;
  m_pb_ongrid       : option nat;
  m_crossover_point : option nat
}.

(** Lines 208-216 in sequence: a statement that raises ends the run. *)
Definition metrics (lib_irr : list Q -> result irr_value) (p : Params)
  : result Metrics :=
  (i1 <- irr_slb lib_irr p ;;
   n1 <- Ok (npv_slb p) ;;
   b1 <- Ok (pb_slb p) ;;
   i2 <- irr_ongrid lib_irr p ;;
   n2 <- Ok (npv_ongrid p) ;;
   b2 <- Ok (pb_ongrid p) ;;
   c <- Ok (crossover_point p) ;;
   Ok (mkMetrics i1 n1 b1 i2 n2 b2 c))%py.

End V5.

(** ** Statements of the specification, in its own words *)

(** Section 4.2: [escalatedCost(y)], [escalatedRevenue(y)] and the net
    nominal cash flow of the SLB scenario with feed-in. *)
Definition spec_escalatedCost (p : Params) (y : nat) : Q :=
  electricity_price p * pow (1 + inflation_rate p) (Z.of_nat y - 1)
  * annual_energy p.

Definition spec_escalatedRevenue (p : Params) (y : nat) : Q :=
  ((7 # 10) * electricity_price p)
  * pow (1 + inflation_rate p) (Z.of_nat y - 1)
  * V5.energy_for_sale_per_month p * 12.

Definition spec_netCashFlow (p : Params) (y : nat) : Q :=
  spec_escalatedCost p y + spec_escalatedRevenue p y - slb_opex p.

(** Section 4.3: the running sum of the nominal cash flows from year 0
    through year [y]. *)
Definition running_sum (cashflows : list Q) (y : nat) : Q :=
  fold_left Qplus (firstn (S y) cashflows) 0.

(** The widget defaults with both capital expenditures set to 0. *)
Definition free_capex_params : Params :=
  mkParams 15 (8 # 100) (3 # 100) (10 # 100) 40 80 10 10 (90 # 100)
           0 0 500 (25 # 100).

(** The sum of a series. *)
Definition sumQ (l : list Q) : Q := fold_right Qplus 0 l.

(** Order on payback years, "not reached" ([None]) being later than every
    year. *)
Definition payback_le (a b : option nat) : Prop :=
  match a, b with
  | _, None => True
  | Some x, Some y => (x <= y)%nat
  | None, Some _ => False
  end.

(** Every nominal cash flow after year 0 is zero. *)
Definition zero_after_year0 (cashflows : list Q) : Prop :=
  forall y, (1 <= y < length cashflows)%nat -> nth y cashflows 0 == 0.

(** The widget defaults with a capital expenditure small enough to be
    paid back within the horizon. *)
Definition small_capex_params : Params :=
  mkParams 15 (8 # 100) (3 # 100) (10 # 100) 40 80 10 10 (90 # 100)
           2000 1000 500 (25 # 100).

(** The widget defaults with an electricity price of 0. *)
Definition free_power_params : Params :=
  mkParams 15 (8 # 100) (3 # 100) (10 # 100) 40 80 10 10 (90 # 100)
           15000 10000 500 0.

(** The widget defaults with no day without charging: nothing is fed in. *)
Definition no_feed_in_params : Params :=
  mkParams 15 (8 # 100) (3 # 100) (10 # 100) 40 80 10 0 (90 # 100)
           15000 10000 500 (25 # 100).

(** The small-capex inputs with a residual value of 0 percent. *)
Definition no_residual_params : Params :=
  mkParams 15 (8 # 100) (3 # 100) 0 40 80 10 10 (90 # 100)
           2000 1000 500 (25 # 100).

(** The widget defaults with a discount rate of 0. *)
Definition zero_rate_params : Params :=
  mkParams 15 0 (3 # 100) (10 # 100) 40 80 10 10 (90 # 100)
           15000 10000 500 (25 # 100).

(** Two runs with the same values in every field the grid-only scenario
    reads. *)
Definition same_grid_inputs (p q : Params) : Prop :=
  analysis_years p = analysis_years q /\
  discount_rate p = discount_rate q /\
  inflation_rate p = inflation_rate q /\
  ev_battery_capacity p = ev_battery_capacity q /\
  ev_charge_percent p = ev_charge_percent q /\
  ev_charging_sessions p = ev_charging_sessions q /\
  electricity_price p = electricity_price q.

Definition set_electricity_price (e : Q) (p : Params) : Params :=
  mkParams (analysis_years p) (discount_rate p) (inflation_rate p)
           (residual_value_percent p) (ev_battery_capacity p)
           (ev_charge_percent p) (ev_charging_sessions p)
           (ev_days_no_charging p) (feed_in_efficiency p)
           (slb_capex_pv p) (slb_capex_battery p) (slb_opex p) e.

(** ** The scripts in double precision

    The same scripts over IEEE 754 binary64 ([float], the kernel's
    primitive doubles, whose [+ - * /] round to nearest even as Python's
    do), to evaluate them bit for bit at concrete inputs.  The definitions
    repeat those above with the same grouping of every expression. *)

Module F64.

Local Open Scope float_scope.

Record Params : Type := mkParams {
  analysis_years         : nat;
  discount_rate          : float;
  inflation_rate         : float;
  residual_value_percent : float;
  ev_battery_capacity    : float;
  ev_charge_percent      : float;
  ev_charging_sessions   : float;
  ev_days_no_charging    : float;
  feed_in_efficiency     : float;
  slb_capex_pv           : float;
  slb_capex_battery      : float;
  slb_opex               : float;
  electricity_price      : float
}.

(** [l[-1] += x] *)
Fixpoint add_last (x : float) (l : list float) : list float :=
  match l with
  | [] => []
  | [a] => [a + x]
  | a :: l' => a :: add_last x l'
  end.

(** [np.cumsum]: the running sums, accumulated from left to right. *)
Fixpoint cumsum_from (acc : float) (l : list float) : list float :=
  match l with
  | [] => []
  | x :: l' => (acc + x) :: cumsum_from (acc + x) l'
  end.

Definition cumsum (l : list float) : list float :=
  match l with
  | [] => []
  | x :: l' => x :: cumsum_from x l'
  end.

Definition years (p : Params) : list nat := seq 1 (analysis_years p).

(** [b ** e] for an integer exponent [e].  numpy hands the power to the C
    library's [pow]; here it is repeated multiplication, which gives the
    exact power, as [pow] does, whenever every intermediate power is a
    binary64 value: so it is for the bases 1 and 1.125 and the exponents
    0..5 used below ([pow_exact] checks it). *)
Definition pow (b : float) (e : Z) : float :=
  match e with
  | Z0 => 1
  | Zpos n => Pos.iter (fun x => x * b) 1 n
  | Zneg n => 1 / Pos.iter (fun x => x * b) 1 n
  end.

(** The rational a finite double stands for. *)
Definition to_Q (x : float) : option Q :=
  match Prim2SF x with
  | S754_zero _ => Some 0%Q
  | S754_finite s m e =>
      Some ((if s then - inject_Z (Zpos m) else inject_Z (Zpos m))
            * Qpower 2 e)%Q
  | _ => None
  end.

Definition append_loop (f : nat -> float) (init : list float) (ys : list nat)
  : list float :=
  fold_left (fun l year => l ++ [f year]) ys init.

Definition append_loop2 (f g : nat -> float) (init : list float * list float)
  (ys : list nat) : list float * list float :=
  fold_left (fun st year => (fst st ++ [f year], snd st ++ [g year])) ys init.

Definition monthly_consumption (p : Params) : float :=
  ev_battery_capacity p * (ev_charge_percent p / 100) * ev_charging_sessions p.

Definition annual_energy (p : Params) : float := monthly_consumption p * 12.

Definition slb_total_capex (p : Params) : float :=
  slb_capex_pv p + slb_capex_battery p.

Definition residual_value (p : Params) : float :=
  residual_value_percent p * slb_total_capex p.

Definition escalated_cost (p : Params) (year : nat) : float :=
  (electricity_price p * pow (1 + inflation_rate p) (Z.of_nat year - 1))
  * annual_energy p.

(** Modelled from the spec: [npf.npv] is numpy_financial's; section 4.3
    gives [sum(cashflow[y] / (1+rate)^y) for y = 0..N].  The sum is taken
    from left to right, starting from 0; [npv_right] takes it from right to
    left.  The library's own order of summation is not in the source. *)
Fixpoint npv_terms (rate : float) (y : nat) (cashflows : list float)
  : list float :=
  match cashflows with
  | [] => []
  | c :: rest => c / pow (1 + rate) (Z.of_nat y) :: npv_terms rate (S y) rest
  end.

Definition calculate_npv (cashflows : list float) (rate : float) : float :=
  fold_left add (npv_terms rate 0%nat cashflows) 0.

Definition npv_right (cashflows : list float) (rate : float) : float :=
  fold_right add 0 (npv_terms rate 0%nat cashflows).

Module V3.

Definition cashflow (p : Params) (year : nat) : float :=
  escalated_cost p year / pow (1 + discount_rate p) (Z.of_nat year)
  - slb_opex p / pow (1 + discount_rate p) (Z.of_nat year).

Definition fc_slb (p : Params) : list float :=
  let fc_slb := append_loop (cashflow p) [- slb_total_capex p] (years p) in
  add_last
    (residual_value p / pow (1 + discount_rate p) (Z.of_nat (analysis_years p)))
    fc_slb.

End V3.

Module V4.

Definition cashflow (p : Params) (year : nat) : float :=
  escalated_cost p year - slb_opex p.

Definition discounted_cashflow (p : Params) (year : nat) : float :=
  cashflow p year / pow (1 + discount_rate p) (Z.of_nat year).

Definition slb_loop (p : Params) : list float * list float :=
  append_loop2 (discounted_cashflow p) (cashflow p)
    ([- slb_total_capex p], [- slb_total_capex p]) (years p).

Definition fc_slb (p : Params) : list float :=
  add_last
    (residual_value p / pow (1 + discount_rate p) (Z.of_nat (analysis_years p)))
    (fst (slb_loop p)).

End V4.

Module V5.

(** [0.7] is the double nearest to 7/10, which is what [7 / 10] rounds
    to. *)
Definition feed_in_tariff (p : Params) : float := (7 / 10) * electricity_price p.

Definition energy_for_sale_per_month (p : Params) : float :=
  ev_battery_capacity p * (1 - ev_charge_percent p / 100)
  * ev_days_no_charging p * feed_in_efficiency p.

Definition escalated_revenue (p : Params) (year : nat) : float :=
  (feed_in_tariff p * pow (1 + inflation_rate p) (Z.of_nat year - 1))
  * energy_for_sale_per_month p * 12.

Definition cashflow (p : Params) (year : nat) : float :=
  (escalated_cost p year + escalated_revenue p year) - slb_opex p.

Definition discounted_cashflow (p : Params) (year : nat) : float :=
  cashflow p year / pow (1 + discount_rate p) (Z.of_nat year).

Definition slb_loop (p : Params) : list float * list float :=
  append_loop2 (discounted_cashflow p) (cashflow p)
    ([- slb_total_capex p], [- slb_total_capex p]) (years p).

Definition fc_slb (p : Params) : list float :=
  add_last
    (residual_value p / pow (1 + discount_rate p) (Z.of_nat (analysis_years p)))
    (fst (slb_loop p)).

Definition slb_cashflows (p : Params) : list float :=
  add_last (residual_value p) (snd (slb_loop p)).

Definition ongrid_discounted (p : Params) (year : nat) : float :=
  - escalated_cost p year / pow (1 + discount_rate p) (Z.of_nat year).

Definition ongrid_loop (p : Params) : list float * list float :=
  append_loop2 (ongrid_discounted p) (fun year => - escalated_cost p year)
    ([0], [0]) (years p).

Definition fc_ongrid (p : Params) : list float := fst (ongrid_loop p).
Definition ongrid_cashflows (p : Params) : list float := snd (ongrid_loop p).

Definition results_slb (p : Params) : list float := cumsum (fc_slb p).
Definition results_ongrid (p : Params) : list float := cumsum (fc_ongrid p).

Definition npv_slb (p : Params) : float :=
  calculate_npv (slb_cashflows p) (discount_rate p).

Definition npv_ongrid (p : Params) : float :=
  calculate_npv (ongrid_cashflows p) (discount_rate p).

End V5.

(** The widget defaults with a horizon of 5 years, a discount rate of
    12.5 percent and no inflation, all within the sidebar's ranges; the
    percent fields are divided by 100 as the scripts do. *)
Definition rounding_params : Params :=
  mkParams 5 (12.5 / 100) (0 / 100) (10 / 100) 40 80 10 10 (90 / 100)
           15000 10000 500 0.25.

(** Inputs within the sidebar's ranges at which every power, every
    discounted cash flow of the years 0..4 and every sum of discounted
    cash flows is a binary64 value, so that the order in which the NPV is
    summed does not matter. *)
Definition exact_sum_params : Params :=
  mkParams 5 (12.5 / 100) (0 / 100) (90 / 100) 200 100 60 10 (90 / 100)
           30000 30000 1618.875 0.0625.

End F64.

(** The summands of the NPV of section 4.3, year by year. *)
Fixpoint npv_terms (rate : Q) (y : nat) (cashflows : list Q) : list Q :=
  match cashflows with
  | [] => []
  | c :: rest => c / pow (1 + rate) (Z.of_nat y) :: npv_terms rate (S y) rest
  end.

(** * Properties *)

(** ** The append loops build [init ++ map f years] *)

Lemma append_loop_map (f : nat -> Q) (ys : list nat) (init : list Q) :
  append_loop f init ys = init ++ map f ys.
Proof.
  unfold append_loop. revert init.
  induction ys as [|y ys IH]; intros init; simpl.
  - now rewrite app_nil_r.
  - rewrite IH, <- app_assoc. reflexivity.
Qed.

Lemma append_loop2_map (f g : nat -> Q) (ys : list nat) (a b : list Q) :
  append_loop2 f g (a, b) ys = (a ++ map f ys, b ++ map g ys).
Proof.
  unfold append_loop2. revert a b.
  induction ys as [|y ys IH]; intros a b; simpl.
  - now rewrite !app_nil_r.
  - rewrite IH, <- !app_assoc. reflexivity.
Qed.

(** ** Reading a list after [l[-1] += x] *)

Lemma add_last_length (x : Q) (l : list Q) :
  length (add_last x l) = length l.
Proof.
  induction l as [|a [|b l] IH]; simpl in *; auto.
Qed.

Lemma nth_add_last (x : Q) (l : list Q) (y : nat) :
  nth y (add_last x l) 0 =
  if (S y =? length l)%nat then nth y l 0 + x else nth y l 0.
Proof.
  revert y. induction l as [|a l IH]; intros y.
  - destruct y; reflexivity.
  - destruct l as [|b l].
    + destruct y as [|[|y]]; reflexivity.
    + change (add_last x (a :: b :: l)) with (a :: add_last x (b :: l)).
      destruct y as [|y]; [reflexivity|].
      change (nth (S y) (a :: add_last x (b :: l)) 0)
        with (nth y (add_last x (b :: l)) 0).
      rewrite IH. reflexivity.
Qed.

Lemma nth_cons_map_seq (f : nat -> Q) (a : Q) (n y : nat) :
  (1 <= y <= n)%nat -> nth y (a :: map f (seq 1 n)) 0 = f y.
Proof.
  intros Hy. destruct y as [|y]; [lia|]. simpl.
  rewrite nth_indep with (d' := f 0%nat) by (rewrite length_map, length_seq; lia).
  rewrite map_nth, seq_nth by lia. reflexivity.
Qed.

(** ** Shape of the nominal series of the second script of v4.py *)

Lemma V5_slb_loop_eq (p : Params) :
  V5.slb_loop p =
  (- slb_total_capex p :: map (V5.discounted_cashflow p) (years p),
   - slb_total_capex p :: map (V5.cashflow p) (years p)).
Proof. unfold V5.slb_loop. now rewrite append_loop2_map. Qed.

Lemma V5_ongrid_loop_eq (p : Params) :
  V5.ongrid_loop p =
  (0 :: map (V5.ongrid_discounted p) (years p),
   0 :: map (fun year => - escalated_cost p year) (years p)).
Proof. unfold V5.ongrid_loop. now rewrite append_loop2_map. Qed.

Lemma V5_slb_cashflows_length (p : Params) :
  length (V5.slb_cashflows p) = S (analysis_years p).
Proof.
  unfold V5.slb_cashflows. rewrite add_last_length, V5_slb_loop_eq. simpl.
  unfold years. now rewrite length_map, length_seq.
Qed.

Lemma V5_ongrid_cashflows_length (p : Params) :
  length (V5.ongrid_cashflows p) = S (analysis_years p).
Proof.
  unfold V5.ongrid_cashflows. rewrite V5_ongrid_loop_eq. simpl.
  unfold years. now rewrite length_map, length_seq.
Qed.

Lemma V5_slb_cashflows_nth (p : Params) (y : nat) :
  (1 <= y <= analysis_years p)%nat ->
  nth y (V5.slb_cashflows p) 0 =
  if (y =? analysis_years p)%nat
  then V5.cashflow p y + residual_value p
  else V5.cashflow p y.
Proof.
  intros Hy. unfold V5.slb_cashflows.
  rewrite nth_add_last, V5_slb_loop_eq. cbn [snd length].
  unfold years. rewrite length_map, length_seq, nth_cons_map_seq by exact Hy.
  reflexivity.
Qed.

(** ** Nominal cash flow of the SLB scenario with feed-in *)

(** C1, as stated, fails: at the widget defaults the nominal cash flow of
    the final year (15) is not [escalatedCost + escalatedRevenue - opex];
    line 171 of v4.py has added the residual value to it. *)
Lemma C1_final_year_differs :
  ~ (forall (p : Params) (y : nat),
        (1 <= y <= analysis_years p)%nat ->
        nth y (V5.slb_cashflows p) 0 == spec_netCashFlow p y).
Proof.
  intros H. specialize (H default_params 15%nat).
  assert (Hy : (1 <= 15 <= analysis_years default_params)%nat)
    by (vm_compute; lia).
  specialize (H Hy). vm_compute in H. discriminate H.
Qed.

(** C1 (amended): for every year y in 1..analysisYears the nominal cash
    flow of the SLB scenario is
    [escalatedCost(y) + escalatedRevenue(y) - annualOpexSLB], the cost
    being added with a plus sign; in the final year y = analysisYears the
    residual value is added to it. *)
Theorem C1_slb_nominal_cashflow (p : Params) (y : nat) :
  (1 <= y <= analysis_years p)%nat ->
  nth y (V5.slb_cashflows p) 0 =
  if (y =? analysis_years p)%nat
  then spec_netCashFlow p y + residual_value p
  else spec_netCashFlow p y.
Proof.
  intros Hy. rewrite V5_slb_cashflows_nth by exact Hy. reflexivity.
Qed.

Lemma C1_slb_nominal_cashflow_witness :
  (1 <= 3 <= analysis_years default_params)%nat /\
  nth 3 (V5.slb_cashflows default_params) 0 =
  (if (3 =? analysis_years default_params)%nat
   then spec_netCashFlow default_params 3 + residual_value default_params
   else spec_netCashFlow default_params 3).
Proof.
  split; [vm_compute; lia|].
  apply (C1_slb_nominal_cashflow default_params 3). vm_compute; lia.
Defined.

(** ** Discounted against nominal cash flows *)

Lemma pow_0_r (b : Q) : pow b 0 = 1.
Proof. reflexivity. Qed.

Lemma Qdiv_1_r (a : Q) : a / 1 == a.
Proof. unfold Qdiv. change (/ 1) with 1. ring. Qed.

Lemma Qdiv_plus_distr (a b c : Q) : a / c + b / c == (a + b) / c.
Proof. unfold Qdiv. ring. Qed.

Lemma Qdiv_0_l (c : Q) : 0 / c == 0.
Proof. unfold Qdiv. ring. Qed.

(** A series [a :: map f years] against the series [a :: map g years] it
    discounts. *)
Lemma nth_discounted_base (d a : Q) (f g : nat -> Q) (n y : nat) :
  (forall k, f k == g k / pow (1 + d) (Z.of_nat k)) ->
  nth y (a :: map f (seq 1 n)) 0 ==
  nth y (a :: map g (seq 1 n)) 0 / pow (1 + d) (Z.of_nat y).
Proof.
  intros Hfg. destruct (Nat.eq_dec y 0) as [->|Hy0].
  - cbn [nth Z.of_nat]. rewrite pow_0_r, Qdiv_1_r. reflexivity.
  - destruct (le_lt_dec y n) as [Hle|Hgt].
    + rewrite !nth_cons_map_seq by lia. apply Hfg.
    + rewrite !nth_overflow
        by (cbn [length]; rewrite length_map, length_seq; lia).
      now rewrite Qdiv_0_l.
Qed.

(** The same after the residual value has been added to both. *)
Lemma nth_discounted_residual (d r a : Q) (f g : nat -> Q) (n y : nat) :
  (forall k, f k == g k / pow (1 + d) (Z.of_nat k)) ->
  nth y (add_last (r / pow (1 + d) (Z.of_nat n)) (a :: map f (seq 1 n))) 0 ==
  nth y (add_last r (a :: map g (seq 1 n))) 0 / pow (1 + d) (Z.of_nat y).
Proof.
  intros Hfg. rewrite !nth_add_last. cbn [length].
  rewrite !length_map, !length_seq.
  destruct (Nat.eqb_spec (S y) (S n)) as [E|_].
  - injection E as ->.
    rewrite (nth_discounted_base d a f g n n Hfg).
    apply Qdiv_plus_distr.
  - apply nth_discounted_base, Hfg.
Qed.

Lemma V5_fc_slb_pointwise (p : Params) (y : nat) :
  nth y (V5.fc_slb p) 0 ==
  nth y (V5.slb_cashflows p) 0 / pow (1 + discount_rate p) (Z.of_nat y).
Proof.
  unfold V5.fc_slb, V5.slb_cashflows. rewrite V5_slb_loop_eq. cbn [fst snd].
  apply nth_discounted_residual. intros k. reflexivity.
Qed.

Lemma V5_fc_ongrid_pointwise (p : Params) (y : nat) :
  nth y (V5.fc_ongrid p) 0 ==
  nth y (V5.ongrid_cashflows p) 0 / pow (1 + discount_rate p) (Z.of_nat y).
Proof.
  unfold V5.fc_ongrid, V5.ongrid_cashflows. rewrite V5_ongrid_loop_eq.
  cbn [fst snd]. apply nth_discounted_base. intros k. reflexivity.
Qed.

(** The discounted SLB series, year by year, as the script writes it. *)
Lemma V5_fc_slb_nth (p : Params) (y : nat) :
  (1 <= y <= analysis_years p)%nat ->
  nth y (V5.fc_slb p) 0 =
  if (y =? analysis_years p)%nat
  then V5.discounted_cashflow p y
       + residual_value p / pow (1 + discount_rate p)
                                (Z.of_nat (analysis_years p))
  else V5.discounted_cashflow p y.
Proof.
  intros Hy. unfold V5.fc_slb.
  rewrite nth_add_last, V5_slb_loop_eq. cbn [fst length].
  unfold years. rewrite length_map, length_seq, nth_cons_map_seq by exact Hy.
  reflexivity.
Qed.

Lemma V5_series_year0 (p : Params) :
  (1 <= analysis_years p)%nat ->
  nth 0 (V5.fc_slb p) 0 = - slb_total_capex p /\
  nth 0 (V5.slb_cashflows p) 0 = - slb_total_capex p /\
  nth 0 (V5.fc_ongrid p) 0 = 0 /\
  nth 0 (V5.ongrid_cashflows p) 0 = 0.
Proof.
  intros HN. unfold V5.fc_slb, V5.slb_cashflows, V5.fc_ongrid,
    V5.ongrid_cashflows.
  rewrite !nth_add_last, V5_slb_loop_eq, V5_ongrid_loop_eq.
  cbn [fst snd length]. unfold years. rewrite !length_map, !length_seq.
  destruct (Nat.eqb_spec 1 (S (analysis_years p))) as [E|_]; [lia|].
  repeat split.
Qed.

Lemma V5_fc_ongrid_nth (p : Params) (y : nat) :
  (1 <= y <= analysis_years p)%nat ->
  nth y (V5.fc_ongrid p) 0 =
  nth y (V5.ongrid_cashflows p) 0
  / pow (1 + discount_rate p) (Z.of_nat y).
Proof.
  intros Hy. unfold V5.fc_ongrid, V5.ongrid_cashflows.
  rewrite V5_ongrid_loop_eq. cbn [fst snd]. unfold years.
  rewrite !nth_cons_map_seq by exact Hy. reflexivity.
Qed.

(** The double-precision powers used below are the exact ones: the rate
    12.5 / 100 is the double 0.125, and 1.125^k is a binary64 value for
    k = 0..5. *)
Lemma F64_pow_exact :
  match F64.to_Q (1 + F64.discount_rate F64.rounding_params)%float with
  | Some q => Qeq_bool q (9 # 8)
  | None => false
  end = true /\
  forallb
    (fun k =>
       match F64.to_Q (F64.pow 1.125%float (Z.of_nat k)) with
       | Some q => Qeq_bool q ((9 # 8) ^ Z.of_nat k)
       | None => false
       end)
    (seq 0 6) = true.
Proof. split; vm_compute; reflexivity. Qed.

(** C3, as stated, fails in the final year of the SLB scenario: with a
    horizon of 5 years, a discount rate of 12.5 percent, no inflation and
    the other widget defaults, the discounted entry of year 5 is
    1726.4949719724298 (1611.2 / 1.125^5 + 2500 / 1.125^5, each quotient
    rounded) while the nominal entry 3111.2 over 1.125^5 is
    1726.4949719724295. *)
Lemma C3_final_year_rounds_differently :
  ~ (forall (p : F64.Params) (y : nat),
        (y <= F64.analysis_years p)%nat ->
        PrimFloat.eqb
          (nth y (F64.V5.fc_slb p) 0%float)
          (nth y (F64.V5.slb_cashflows p) 0%float
           / F64.pow (1 + F64.discount_rate p) (Z.of_nat y))%float = true
        /\
        PrimFloat.eqb
          (nth y (F64.V5.fc_ongrid p) 0%float)
          (nth y (F64.V5.ongrid_cashflows p) 0%float
           / F64.pow (1 + F64.discount_rate p) (Z.of_nat y))%float = true).
Proof.
  intros H.
  destruct (H F64.rounding_params 5%nat) as [Hslb _]; [vm_compute; lia|].
  vm_compute in Hslb. discriminate Hslb.
Qed.

(** C3 (amended): with a horizon of at least one year, for every year y in
    0..analysisYears the discounted cash flow of year y is the nominal cash
    flow of year y divided by (1 + discountRate)^y, for the grid-only
    scenario in every year and for the SLB scenario in every year but the
    final one; in year 0 the divisor is 1 and the two entries are the same
    value.  In the final year of the SLB scenario the nominal entry is
    cashflow + residualValue and the discounted entry is
    cashflow / (1 + discountRate)^analysisYears
    + residualValue / (1 + discountRate)^analysisYears, each term
    discounted on its own. *)
Theorem C3_discounted_by_year (p : Params) (y : nat) :
  (1 <= analysis_years p)%nat ->
  (y <= analysis_years p)%nat ->
  (1 + discount_rate p) ^ 0 = 1
  /\
  nth y (V5.fc_ongrid p) 0 =
    (if (y =? 0)%nat then nth y (V5.ongrid_cashflows p) 0
     else nth y (V5.ongrid_cashflows p) 0
          / (1 + discount_rate p) ^ Z.of_nat y)
  /\
  nth y (V5.fc_slb p) 0 =
    (if (y =? 0)%nat then nth y (V5.slb_cashflows p) 0
     else if (y =? analysis_years p)%nat
     then V5.cashflow p y / (1 + discount_rate p) ^ Z.of_nat y
          + residual_value p / (1 + discount_rate p) ^ Z.of_nat y
     else nth y (V5.slb_cashflows p) 0
          / (1 + discount_rate p) ^ Z.of_nat y)
  /\
  nth (analysis_years p) (V5.slb_cashflows p) 0 =
    V5.cashflow p (analysis_years p) + residual_value p.
Proof.
  intros HN Hy. split; [reflexivity|].
  destruct (V5_series_year0 p HN) as (F0 & C0 & G0 & O0).
  assert (Hlast : nth (analysis_years p) (V5.slb_cashflows p) 0 =
                  V5.cashflow p (analysis_years p) + residual_value p).
  { rewrite V5_slb_cashflows_nth by lia. now rewrite Nat.eqb_refl. }
  destruct y as [|y].
  - cbn [Nat.eqb]. rewrite F0, C0, G0, O0. auto.
  - change (S y =? 0)%nat with false. cbv iota.
    split; [|split; [|exact Hlast]].
    + apply V5_fc_ongrid_nth. lia.
    + rewrite V5_fc_slb_nth, V5_slb_cashflows_nth by lia.
      destruct (S y =? analysis_years p)%nat eqn:E.
      * apply Nat.eqb_eq in E. rewrite <- E. reflexivity.
      * reflexivity.
Qed.

Lemma C3_discounted_by_year_witness :
  (1 <= analysis_years default_params)%nat /\
  (15 <= analysis_years default_params)%nat /\
  nth 15 (V5.slb_cashflows default_params) 0 =
    V5.cashflow default_params 15 + residual_value default_params.
Proof.
  assert (HN : (1 <= analysis_years default_params)%nat) by (vm_compute; lia).
  assert (Hy : (15 <= analysis_years default_params)%nat)
    by (vm_compute; lia).
  split; [exact HN|]. split; [exact Hy|].
  exact (proj2 (proj2 (proj2
    (C3_discounted_by_year default_params 15 HN Hy)))).
Defined.

(** ** Year 0 of the cumulative discounted series *)

Lemma cumsum_nth_0 (l : list Q) : nth 0 (cumsum l) 0 = nth 0 l 0.
Proof. destruct l; reflexivity. Qed.

(** C4: for every valid input (a horizon of at least one year) the
    cumulative discounted series at year 0 is -(capexPV + capexBattery)
    for the SLB scenario and 0 for the grid-only scenario. *)
Theorem C4_year0_cumulative (p : Params) :
  (1 <= analysis_years p)%nat ->
  nth 0 (V5.results_slb p) 0 = - (slb_capex_pv p + slb_capex_battery p)
  /\ nth 0 (V5.results_ongrid p) 0 = 0.
Proof.
  intros HN. unfold V5.results_slb, V5.results_ongrid.
  rewrite !cumsum_nth_0. split.
  - unfold V5.fc_slb. rewrite nth_add_last, V5_slb_loop_eq. cbn [fst length].
    unfold years. rewrite length_map, length_seq.
    destruct (Nat.eqb_spec 1 (S (analysis_years p))) as [E|_]; [lia|].
    reflexivity.
  - unfold V5.fc_ongrid. rewrite V5_ongrid_loop_eq. reflexivity.
Qed.

Lemma C4_year0_cumulative_witness :
  (1 <= analysis_years default_params)%nat /\
  nth 0 (V5.results_slb default_params) 0 =
    - (slb_capex_pv default_params + slb_capex_battery default_params)
  /\ nth 0 (V5.results_ongrid default_params) 0 = 0.
Proof.
  split; [vm_compute; lia|].
  apply (C4_year0_cumulative default_params). vm_compute; lia.
Defined.

(** ** Payback year *)

Lemma Qle_bool_false (a b : Q) : Qle_bool a b = false -> b < a.
Proof.
  intros E. apply Qnot_le_lt. intros H.
  apply Qle_bool_iff in H. congruence.
Qed.

Lemma payback_loop_some (l : list Q) (acc : Q) (i k : nat) :
  payback_loop acc i l = Some k ->
  exists j, k = (i + j)%nat /\ (j < length l)%nat /\
    0 <= fold_left Qplus (firstn (S j) l) acc /\
    forall j', (j' < j)%nat -> fold_left Qplus (firstn (S j') l) acc < 0.
Proof.
  revert acc i. induction l as [|v l IH]; intros acc i; cbn [payback_loop].
  - discriminate.
  - destruct (Qle_bool 0 (acc + v)) eqn:E.
    + intros [= <-]. exists 0%nat. repeat split.
      * lia.
      * cbn; lia.
      * apply Qle_bool_iff in E. exact E.
      * intros j' Hj'. lia.
    + intros H. destruct (IH _ _ H) as (j & -> & Hlen & Hge & Hlt).
      exists (S j). repeat split.
      * lia.
      * cbn [length]; lia.
      * exact Hge.
      * intros [|j'] Hj'.
        -- apply Qle_bool_false in E. exact E.
        -- apply (Hlt j'). lia.
Qed.

Lemma payback_loop_first (l : list Q) (acc : Q) (i j : nat) :
  (j < length l)%nat ->
  0 <= fold_left Qplus (firstn (S j) l) acc ->
  (forall j', (j' < j)%nat -> fold_left Qplus (firstn (S j') l) acc < 0) ->
  payback_loop acc i l = Some (i + j)%nat.
Proof.
  revert acc i j. induction l as [|v l IH]; intros acc i j Hlen Hge Hlt.
  - cbn in Hlen; lia.
  - cbn [payback_loop]. destruct j as [|j].
    + cbn in Hge. apply Qle_bool_iff in Hge. rewrite Hge.
      now rewrite Nat.add_0_r.
    + destruct (Qle_bool 0 (acc + v)) eqn:E.
      * apply Qle_bool_iff in E.
        specialize (Hlt 0%nat (Nat.lt_0_succ j)). cbn in Hlt.
        exfalso. apply (Qlt_not_le _ _ Hlt E).
      * rewrite (IH (acc + v) (S i) j).
        -- f_equal. lia.
        -- cbn [length] in Hlen. lia.
        -- exact Hge.
        -- intros j' Hj'. apply (Hlt (S j')). lia.
Qed.

Lemma payback_loop_none (l : list Q) (acc : Q) (i : nat) :
  payback_loop acc i l = None <->
  forall j, (j < length l)%nat -> fold_left Qplus (firstn (S j) l) acc < 0.
Proof.
  revert acc i. induction l as [|v l IH]; intros acc i; cbn [payback_loop].
  - split; [intros _ j Hj; cbn in Hj; lia | reflexivity].
  - destruct (Qle_bool 0 (acc + v)) eqn:E.
    + split; [discriminate|]. intros H.
      specialize (H 0%nat (Nat.lt_0_succ _)). cbn in H.
      apply Qle_bool_iff in E. exfalso. apply (Qlt_not_le _ _ H E).
    + rewrite IH. split.
      * intros H [|j] Hj.
        -- apply Qle_bool_false in E. exact E.
        -- apply (H j). cbn [length] in Hj. lia.
      * intros H j Hj. apply (H (S j)). cbn [length]. lia.
Qed.

(** C5: on every nominal cash-flow sequence the payback computation
    returns the smallest 0-based year index whose running sum (years 0
    through y) is >= 0, and returns None if and only if the running sum is
    negative at every index of the sequence. *)
Theorem C5_payback_smallest_index (cashflows : list Q) :
  (forall y : nat,
      calculate_payback cashflows = Some y <->
      (y < length cashflows)%nat /\
      0 <= running_sum cashflows y /\
      (forall j, (j < y)%nat -> running_sum cashflows j < 0))
  /\
  (calculate_payback cashflows = None <->
   forall j, (j < length cashflows)%nat -> running_sum cashflows j < 0).
Proof.
  unfold calculate_payback, running_sum. split.
  - intros y. split.
    + intros H. apply payback_loop_some in H.
      destruct H as (j & -> & Hlen & Hge & Hlt). cbn [Nat.add]. auto.
    + intros (Hlen & Hge & Hlt).
      apply (payback_loop_first cashflows 0 0%nat y Hlen Hge Hlt).
  - apply payback_loop_none.
Qed.

(** ** Crossover year *)

Lemma Qgtb_true (a b : Q) : Qgtb a b = true -> b < a.
Proof.
  unfold Qgtb. intros E. apply Qle_bool_false.
  now apply negb_true_iff in E.
Qed.

Lemma Qgtb_false (a b : Q) : Qgtb a b = false -> a <= b.
Proof.
  unfold Qgtb. intros E. apply negb_false_iff in E.
  now apply Qle_bool_iff.
Qed.

Lemma Qgtb_intro (a b : Q) : b < a -> Qgtb a b = true.
Proof.
  intros H. unfold Qgtb. apply negb_true_iff.
  destruct (Qle_bool a b) eqn:E; [|reflexivity].
  apply Qle_bool_iff in E. exfalso. apply (Qlt_not_le _ _ H E).
Qed.

Lemma crossover_loop_some (z : list (Q * Q)) (i k : nat) :
  crossover_loop i z = Some k ->
  exists j, k = (i + j)%nat /\ (j < length z)%nat /\
    snd (nth j z (0, 0)) < fst (nth j z (0, 0)) /\
    forall j', (j' < j)%nat ->
               fst (nth j' z (0, 0)) <= snd (nth j' z (0, 0)).
Proof.
  revert i. induction z as [|[a b] z IH]; intros i; cbn [crossover_loop].
  - discriminate.
  - destruct (Qgtb a b) eqn:E.
    + intros [= <-]. exists 0%nat. repeat split.
      * lia.
      * cbn; lia.
      * apply Qgtb_true in E. exact E.
      * intros j' Hj'. lia.
    + intros H. destruct (IH _ H) as (j & -> & Hlen & Hgt & Hle).
      exists (S j). repeat split.
      * lia.
      * cbn [length]; lia.
      * exact Hgt.
      * intros [|j'] Hj'.
        -- apply Qgtb_false in E. exact E.
        -- apply (Hle j'). lia.
Qed.

Lemma crossover_loop_first (z : list (Q * Q)) (i j : nat) :
  (j < length z)%nat ->
  snd (nth j z (0, 0)) < fst (nth j z (0, 0)) ->
  (forall j', (j' < j)%nat ->
              fst (nth j' z (0, 0)) <= snd (nth j' z (0, 0))) ->
  crossover_loop i z = Some (i + j)%nat.
Proof.
  revert i j. induction z as [|[a b] z IH]; intros i j Hlen Hgt Hle.
  - cbn in Hlen; lia.
  - cbn [crossover_loop]. destruct j as [|j].
    + cbn in Hgt. rewrite (Qgtb_intro _ _ Hgt). now rewrite Nat.add_0_r.
    + destruct (Qgtb a b) eqn:E.
      * apply Qgtb_true in E.
        specialize (Hle 0%nat (Nat.lt_0_succ j)). cbn in Hle.
        exfalso. apply (Qlt_not_le _ _ E Hle).
      * rewrite (IH (S i) j).
        -- f_equal. lia.
        -- cbn [length] in Hlen. lia.
        -- exact Hgt.
        -- intros j' Hj'. apply (Hle (S j')). lia.
Qed.

Lemma crossover_loop_none (z : list (Q * Q)) (i : nat) :
  crossover_loop i z = None <->
  forall j, (j < length z)%nat ->
            fst (nth j z (0, 0)) <= snd (nth j z (0, 0)).
Proof.
  revert i. induction z as [|[a b] z IH]; intros i; cbn [crossover_loop].
  - split; [intros _ j Hj; cbn in Hj; lia | reflexivity].
  - destruct (Qgtb a b) eqn:E.
    + split; [discriminate|]. intros H.
      specialize (H 0%nat (Nat.lt_0_succ _)). cbn in H.
      apply Qgtb_true in E. exfalso. apply (Qlt_not_le _ _ E H).
    + rewrite IH. split.
      * intros H [|j] Hj.
        -- apply Qgtb_false in E. exact E.
        -- apply (H j). cbn [length] in Hj. lia.
      * intros H j Hj. apply (H (S j)). cbn [length]. lia.
Qed.

Lemma cumsum_from_length (l : list Q) (acc : Q) :
  length (cumsum_from acc l) = length l.
Proof.
  revert acc. induction l as [|x l IH]; intros acc; cbn; [|rewrite IH];
    reflexivity.
Qed.

Lemma cumsum_length (l : list Q) : length (cumsum l) = length l.
Proof. destruct l; cbn; [|rewrite cumsum_from_length]; reflexivity. Qed.

Lemma V5_fc_slb_length (p : Params) :
  length (V5.fc_slb p) = S (analysis_years p).
Proof.
  unfold V5.fc_slb. rewrite add_last_length, V5_slb_loop_eq. cbn [fst length].
  unfold years. now rewrite length_map, length_seq.
Qed.

Lemma V5_fc_ongrid_length (p : Params) :
  length (V5.fc_ongrid p) = S (analysis_years p).
Proof.
  unfold V5.fc_ongrid. rewrite V5_ongrid_loop_eq. cbn [fst length].
  unfold years. now rewrite length_map, length_seq.
Qed.

Lemma V5_results_slb_length (p : Params) :
  length (V5.results_slb p) = S (analysis_years p).
Proof. unfold V5.results_slb. now rewrite cumsum_length, V5_fc_slb_length. Qed.

Lemma V5_results_ongrid_length (p : Params) :
  length (V5.results_ongrid p) = S (analysis_years p).
Proof.
  unfold V5.results_ongrid. now rewrite cumsum_length, V5_fc_ongrid_length.
Qed.

Lemma V5_results_zip (p : Params) :
  length (combine (V5.results_slb p) (V5.results_ongrid p))
    = S (analysis_years p)
  /\ forall j,
      nth j (combine (V5.results_slb p) (V5.results_ongrid p)) (0, 0)
      = (nth j (V5.results_slb p) 0, nth j (V5.results_ongrid p) 0).
Proof.
  split.
  - rewrite length_combine, V5_results_slb_length, V5_results_ongrid_length.
    apply Nat.min_id.
  - intros j. apply combine_nth.
    now rewrite V5_results_slb_length, V5_results_ongrid_length.
Qed.

(** C2, as stated, fails: with both capital expenditures at 0 the two
    cumulative series are equal (both 0) at year 0, the crossover year is
    1, and the SLB series is not strictly below the grid-only series at
    year 0. *)
Lemma C2_not_strictly_below_before :
  ~ (forall (p : Params) (k : nat),
        V5.crossover_point p = Some k ->
        (forall j, (j < k)%nat ->
                   nth j (V5.results_slb p) 0 < nth j (V5.results_ongrid p) 0)
        /\ nth k (V5.results_ongrid p) 0 <= nth k (V5.results_slb p) 0).
Proof.
  intros H.
  destruct (H free_capex_params 1%nat) as [Hlt _]; [vm_compute; reflexivity|].
  specialize (Hlt 0%nat (Nat.lt_0_succ 0)).
  vm_compute in Hlt. discriminate Hlt.
Qed.

(** C2 (amended): the crossover year is the smallest year index, from 0,
    at which the cumulative discounted SLB value strictly exceeds the
    grid-only one; at every earlier index the SLB value is less than or
    equal to the grid-only value; it is undefined exactly when no index
    in 0..analysisYears has a strict excess. *)
Theorem C2_crossover_smallest_strict_excess (p : Params) :
  (forall k : nat,
      V5.crossover_point p = Some k <->
      (k <= analysis_years p)%nat /\
      nth k (V5.results_ongrid p) 0 < nth k (V5.results_slb p) 0 /\
      (forall j, (j < k)%nat ->
                 nth j (V5.results_slb p) 0 <= nth j (V5.results_ongrid p) 0))
  /\
  (V5.crossover_point p = None <->
   forall j, (j <= analysis_years p)%nat ->
             nth j (V5.results_slb p) 0 <= nth j (V5.results_ongrid p) 0).
Proof.
  unfold V5.crossover_point, calculate_crossover.
  destruct (V5_results_zip p) as [Hlen Hnth]. split.
  - intros k. split.
    + intros H. apply crossover_loop_some in H.
      destruct H as (j & -> & Hj & Hgt & Hle). cbn [Nat.add].
      rewrite Hlen in Hj. rewrite Hnth in Hgt. repeat split.
      * lia.
      * exact Hgt.
      * intros j' Hj'. specialize (Hle j' Hj'). now rewrite Hnth in Hle.
    + intros (Hk & Hgt & Hle).
      apply (crossover_loop_first _ 0%nat k).
      * rewrite Hlen. lia.
      * now rewrite Hnth.
      * intros j' Hj'. rewrite Hnth. now apply Hle.
  - rewrite crossover_loop_none, Hlen. split.
    + intros H j Hj. specialize (H j). rewrite Hnth in H. apply H. lia.
    + intros H j Hj. rewrite Hnth. apply H. lia.
Qed.

(** ** IRR failures stay local *)

Lemma calculate_irr_cases (lib_irr : list Q -> result irr_value)
  (cashflows : list Q) :
  calculate_irr lib_irr cashflows =
  match lib_irr cashflows with
  | Ok r => Ok (Some r)
  | Raise _ => Ok None
  end.
Proof. unfold calculate_irr. destruct (lib_irr cashflows); reflexivity. Qed.

Lemma calculate_irr_returns (lib_irr : list Q -> result irr_value)
  (cashflows : list Q) :
  exists r, calculate_irr lib_irr cashflows = Ok r.
Proof.
  rewrite calculate_irr_cases. destruct (lib_irr cashflows); eauto.
Qed.

(** C6: whatever the root finder of the library does on a cash-flow
    sequence (return a rate, return nan, raise), the IRR computation
    returns and never raises; when the root finder raises the result is
    None, when it returns nan the result is nan.  The run of lines 208-216
    then always completes, and the NPV, the payback year, the crossover
    year and the other scenario's IRR it holds are the ones computed from
    the cash flows, whether or not an IRR was found. *)
Theorem C6_irr_failure_contained (lib_irr : list Q -> result irr_value)
  (p : Params) :
  (forall cashflows,
      (exists r, calculate_irr lib_irr cashflows = Ok r) /\
      (forall e, lib_irr cashflows = Raise e ->
                 calculate_irr lib_irr cashflows = Ok None) /\
      (lib_irr cashflows = Ok NotANumber ->
       calculate_irr lib_irr cashflows = Ok (Some NotANumber)))
  /\
  exists m : V5.Metrics,
    V5.metrics lib_irr p = Ok m /\
    Ok (V5.m_irr_slb m) = V5.irr_slb lib_irr p /\
    Ok (V5.m_irr_ongrid m) = V5.irr_ongrid lib_irr p /\
    V5.m_npv_slb m = V5.npv_slb p /\
    V5.m_pb_slb m = V5.pb_slb p /\
    V5.m_npv_ongrid m = V5.npv_ongrid p /\
    V5.m_pb_ongrid m = V5.pb_ongrid p /\
    V5.m_crossover_point m = V5.crossover_point p /\
    (forall e, lib_irr (V5.slb_cashflows p) = Raise e ->
               V5.m_irr_slb m = None) /\
    (forall e, lib_irr (V5.ongrid_cashflows p) = Raise e ->
               V5.m_irr_ongrid m = None).
Proof.
  split.
  - intros cashflows. split; [apply calculate_irr_returns|].
    split; [intros e He | intros He];
      rewrite calculate_irr_cases, He; reflexivity.
  - unfold V5.metrics, V5.irr_slb, V5.irr_ongrid.
    rewrite !calculate_irr_cases.
    destruct (lib_irr (V5.slb_cashflows p)) as [r1|e1] eqn:E1;
      destruct (lib_irr (V5.ongrid_cashflows p)) as [r2|e2] eqn:E2;
      cbn [bind]; eexists; (split; [reflexivity|]); cbn;
      repeat split; intros; congruence.
Qed.

(** ** The earliest script against the first script of v4.py *)

Lemma add_last_Forall2 (x : Q) (l1 l2 : list Q) :
  Forall2 Qeq l1 l2 -> Forall2 Qeq (add_last x l1) (add_last x l2).
Proof.
  induction 1 as [|a b l1 l2 Hab Hl IH]; [constructor|].
  destruct Hl as [|a' b' l1 l2 Hab' Hl].
  - cbn. constructor; [|constructor]. now rewrite Hab.
  - change (Forall2 Qeq (a :: add_last x (a' :: l1))
                        (b :: add_last x (b' :: l2))).
    constructor; assumption.
Qed.

Lemma map_Forall2 (f g : nat -> Q) (l : list nat) :
  (forall k, f k == g k) -> Forall2 Qeq (map f l) (map g l).
Proof. intros H. induction l; cbn; constructor; auto. Qed.

Lemma V3_cashflow_V4 (p : Params) (year : nat) :
  V3.cashflow p year == V4.discounted_cashflow p year.
Proof.
  unfold V3.cashflow, V4.discounted_cashflow, V4.cashflow, Qdiv. ring.
Qed.

(** C9, as stated, fails: the two scripts round differently.  With a
    horizon of 5 years, a discount rate of 12.5 percent, no inflation and
    the other widget defaults, the entry of year 2 is 363.45679012345676
    in V3.py (960 / 1.125^2 - 500 / 1.125^2) and 363.45679012345681 in the
    first script of v4.py (460 / 1.125^2). *)
Lemma C9_entries_differ_in_doubles :
  ~ (forall (p : F64.Params) (y : nat),
        (y <= F64.analysis_years p)%nat ->
        PrimFloat.eqb (nth y (F64.V3.fc_slb p) 0%float)
                      (nth y (F64.V4.fc_slb p) 0%float) = true).
Proof.
  intros H.
  assert (Hy : (2 <= F64.analysis_years F64.rounding_params)%nat)
    by (vm_compute; lia).
  specialize (H F64.rounding_params 2%nat Hy).
  vm_compute in H. discriminate H.
Qed.

(** C9 (amended): for every parameter setting the SLB series of the
    earliest script and the discounted SLB series of the first script of
    v4.py have the same length and the same year-0 entry; in every year
    1..analysisYears the earliest script holds
    escalatedCost / (1+discountRate)^y - opex / (1+discountRate)^y and the
    first script of v4.py (escalatedCost - opex) / (1+discountRate)^y, and
    in the final year both add residualValue / (1+discountRate)^y to it;
    with annualOpexSLB = 0 the two series are equal year by year. *)
Theorem C9_v3_against_v4_series (p : Params) :
  length (V3.fc_slb p) = length (V4.fc_slb p) /\
  nth 0 (V3.fc_slb p) 0 = nth 0 (V4.fc_slb p) 0 /\
  (forall y, (1 <= y <= analysis_years p)%nat ->
     nth y (V3.fc_slb p) 0 =
       (if (y =? analysis_years p)%nat
        then escalated_cost p y / (1 + discount_rate p) ^ Z.of_nat y
             - slb_opex p / (1 + discount_rate p) ^ Z.of_nat y
             + residual_value p / (1 + discount_rate p) ^ Z.of_nat y
        else escalated_cost p y / (1 + discount_rate p) ^ Z.of_nat y
             - slb_opex p / (1 + discount_rate p) ^ Z.of_nat y)
     /\
     nth y (V4.fc_slb p) 0 =
       (if (y =? analysis_years p)%nat
        then (escalated_cost p y - slb_opex p)
             / (1 + discount_rate p) ^ Z.of_nat y
             + residual_value p / (1 + discount_rate p) ^ Z.of_nat y
        else (escalated_cost p y - slb_opex p)
             / (1 + discount_rate p) ^ Z.of_nat y))
  /\
  (slb_opex p == 0 -> Forall2 Qeq (V3.fc_slb p) (V4.fc_slb p)).
Proof.
  unfold V3.fc_slb, V4.fc_slb, V4.slb_loop.
  rewrite append_loop_map, append_loop2_map. cbn [fst app].
  split; [|split; [|split]].
  - rewrite !add_last_length. cbn [length]. now rewrite !length_map.
  - rewrite !nth_add_last. cbn [length]. rewrite !length_map. reflexivity.
  - intros y Hy. rewrite !nth_add_last. cbn [length].
    unfold years. rewrite !length_map, !length_seq.
    rewrite !nth_cons_map_seq by exact Hy.
    destruct (y =? analysis_years p)%nat eqn:E.
    + apply Nat.eqb_eq in E. rewrite <- E.
      change (S y =? S y)%nat with (y =? y)%nat. rewrite Nat.eqb_refl.
      split; reflexivity.
    + change (S y =? S (analysis_years p))%nat
        with (y =? analysis_years p)%nat. rewrite E.
      split; reflexivity.
  - intros _. apply add_last_Forall2. constructor; [reflexivity|].
    apply map_Forall2. intros k. apply V3_cashflow_V4.
Qed.

(** ** NPV against the last entry of the cumulative discounted series *)

Lemma cumsum_from_last (l : list Q) (acc : Q) :
  l <> [] ->
  nth (length l - 1) (cumsum_from acc l) 0 == acc + sumQ l.
Proof.
  revert acc. induction l as [|x l IH]; intros acc Hne; [congruence|].
  destruct l as [|y l].
  - cbn. ring.
  - change (nth (length (x :: y :: l) - 1) (cumsum_from acc (x :: y :: l)) 0)
      with (nth (length l) (cumsum_from (acc + x) (y :: l)) 0).
    replace (length l) with (length (y :: l) - 1)%nat by (cbn; lia).
    rewrite IH by discriminate.
    change (sumQ (x :: y :: l)) with (x + sumQ (y :: l)). ring.
Qed.

Lemma cumsum_last (l : list Q) :
  l <> [] -> nth (length l - 1) (cumsum l) 0 == sumQ l.
Proof.
  destruct l as [|x l]; [congruence|]. intros _.
  destruct l as [|y l]; [cbn; ring|].
  change (nth (length l) (cumsum_from x (y :: l)) 0 == x + sumQ (y :: l)).
  replace (length l) with (length (y :: l) - 1)%nat by (cbn; lia).
  apply cumsum_from_last. discriminate.
Qed.

(** The NPV of a nominal series is the sum of a series that discounts it
    entry by entry. *)
Lemma npv_from_sumQ (d : Q) (L : list Q) :
  forall (D : list Q) (k : nat),
    length D = length L ->
    (forall j, nth j D 0 ==
               nth j L 0 / pow (1 + d) (Z.of_nat (k + j))) ->
    npv_from d k L == sumQ D.
Proof.
  induction L as [|c L IH]; intros D k Hlen Hpt.
  - destruct D; [reflexivity | discriminate].
  - destruct D as [|c' D]; [discriminate|]. cbn [npv_from sumQ fold_right].
    rewrite (IH D (S k)).
    + specialize (Hpt 0%nat). cbn [nth] in Hpt.
      rewrite Nat.add_0_r in Hpt. rewrite Hpt. reflexivity.
    + cbn [length] in Hlen. lia.
    + intros j. specialize (Hpt (S j)). cbn [nth] in Hpt.
      replace (S k + j)%nat with (k + S j)%nat by lia. exact Hpt.
Qed.

Lemma npv_is_last_cumulative (d : Q) (L D : list Q) (n : nat) :
  length L = S n -> length D = S n ->
  (forall j, nth j D 0 == nth j L 0 / pow (1 + d) (Z.of_nat j)) ->
  calculate_npv L d == nth n (cumsum D) 0.
Proof.
  intros HL HD Hpt. unfold calculate_npv.
  rewrite (npv_from_sumQ d L D 0 (eq_trans HD (eq_sym HL)) Hpt).
  replace n with (length D - 1)%nat by lia.
  symmetry. apply cumsum_last. intros ->. discriminate HD.
Qed.

Lemma npv_from_terms (d : Q) (L : list Q) (k : nat) :
  npv_from d k L = sumQ (npv_terms d k L).
Proof.
  revert k. induction L as [|c L IH]; intros k; cbn; [|rewrite IH];
    reflexivity.
Qed.

Lemma nth_npv_terms (d : Q) (L : list Q) (k y : nat) :
  (y < length L)%nat ->
  nth y (npv_terms d k L) 0 = nth y L 0 / pow (1 + d) (Z.of_nat (k + y)).
Proof.
  revert k y. induction L as [|c L IH]; intros k y Hy.
  - cbn in Hy; lia.
  - destruct y as [|y]; cbn [npv_terms nth].
    + now rewrite Nat.add_0_r.
    + rewrite IH by (cbn [length] in Hy; lia).
      replace (S k + y)%nat with (k + S y)%nat by lia. reflexivity.
Qed.

Lemma cumsum_from_last_fold (l : list Q) (acc : Q) :
  l <> [] ->
  nth (length l - 1) (cumsum_from acc l) 0 = fold_left Qplus l acc.
Proof.
  revert acc. induction l as [|x l IH]; intros acc Hne; [congruence|].
  destruct l as [|y l]; [reflexivity|].
  change (nth (length (x :: y :: l) - 1) (cumsum_from acc (x :: y :: l)) 0)
    with (nth (length l) (cumsum_from (acc + x) (y :: l)) 0).
  replace (length l) with (length (y :: l) - 1)%nat by (cbn; lia).
  rewrite IH by discriminate. reflexivity.
Qed.

(** The last row of a column of the table is the sum of the series taken
    from left to right. *)
Lemma cumsum_last_fold (l : list Q) (n : nat) :
  length l = S n ->
  nth n (cumsum l) 0 = fold_left Qplus (tl l) (hd 0 l).
Proof.
  destruct l as [|x l]; [discriminate|]. intros [= Hl]. cbn [cumsum hd tl].
  destruct l as [|y l].
  - cbn in Hl. subst n. reflexivity.
  - destruct n as [|n]; [discriminate|]. cbn [nth].
    replace n with (length (y :: l) - 1)%nat by (cbn in *; lia).
    apply cumsum_from_last_fold. discriminate.
Qed.

(** At [F64.exact_sum_params] every addition of the NPV sum is exact, so
    that its order is immaterial: from left to right, from right to left
    and first term plus the sum of the others give the same double. *)
Lemma F64_npv_order_immaterial :
  let p := F64.exact_sum_params in
  let terms :=
    F64.npv_terms (F64.discount_rate p) 0 (F64.V5.slb_cashflows p) in
  PrimFloat.eqb (F64.V5.npv_slb p)
    (F64.npv_right (F64.V5.slb_cashflows p) (F64.discount_rate p)) = true /\
  PrimFloat.eqb (F64.V5.npv_slb p)
    (hd 0%float terms + fold_left PrimFloat.add (tl terms) 0%float)%float
  = true /\
  match F64.to_Q (F64.V5.npv_slb p) with
  | Some q =>
      Qeq_bool q
        (fold_right
           (fun t acc =>
              match F64.to_Q t with Some x => x + acc | None => acc end)
           0 terms)
  | None => false
  end = true.
Proof. repeat split; vm_compute; reflexivity. Qed.

(** C10, as stated, fails: with a horizon of 5 years, a discount rate of
    12.5 percent, no inflation, capex 30000 + 30000, a residual value of 90
    percent, opex 1618.875, a price of 0.0625, battery 200 kWh, charge
    level 100 percent and 60 sessions (all within the sidebar's ranges), the
    NPV of the SLB scenario is -3752.8363054412403 and the last row of its
    column -3752.8363054412475: the NPV discounts 7381.125 + 54000 at once,
    the series adds 7381.125 / 1.125^5 and 54000 / 1.125^5. *)
Lemma C10_npv_differs_from_last_row :
  ~ (forall p : F64.Params,
        PrimFloat.eqb (F64.V5.npv_slb p)
          (nth (F64.analysis_years p) (F64.V5.results_slb p) 0%float) = true
        /\
        PrimFloat.eqb (F64.V5.npv_ongrid p)
          (nth (F64.analysis_years p) (F64.V5.results_ongrid p) 0%float)
        = true).
Proof.
  intros H. destruct (H F64.exact_sum_params) as [Hslb _].
  vm_compute in Hslb. discriminate Hslb.
Qed.

(** C10 (amended): for every input with a horizon of at least one year and
    for each scenario, the reported NPV is the sum over the years
    0..analysisYears of nominal[y] / (1+discountRate)^y, and the last entry
    of the cumulative discounted series is the sum, from left to right, of
    the discounted cash flows.  The two sums have the same summands in
    every year of the grid-only scenario and in every year but the final
    one of the SLB scenario; in the final year of the SLB scenario the NPV
    sums (cashflow + residualValue) / (1+discountRate)^analysisYears and
    the series cashflow / (1+discountRate)^analysisYears
    + residualValue / (1+discountRate)^analysisYears. *)
Theorem C10_npv_and_last_row (p : Params) :
  (1 <= analysis_years p)%nat ->
  let d := discount_rate p in
  let n := analysis_years p in
  (nth n (V5.results_slb p) 0
     = fold_left Qplus (tl (V5.fc_slb p)) (hd 0 (V5.fc_slb p)) /\
   nth n (V5.results_ongrid p) 0
     = fold_left Qplus (tl (V5.fc_ongrid p)) (hd 0 (V5.fc_ongrid p)))
  /\
  (V5.npv_slb p = sumQ (npv_terms d 0 (V5.slb_cashflows p)) /\
   V5.npv_ongrid p = sumQ (npv_terms d 0 (V5.ongrid_cashflows p)))
  /\
  (nth 0 (npv_terms d 0 (V5.slb_cashflows p)) 0 == nth 0 (V5.fc_slb p) 0 /\
   nth 0 (npv_terms d 0 (V5.ongrid_cashflows p)) 0
     == nth 0 (V5.fc_ongrid p) 0)
  /\
  (forall y, (1 <= y <= n)%nat ->
     nth y (npv_terms d 0 (V5.ongrid_cashflows p)) 0
     = nth y (V5.fc_ongrid p) 0)
  /\
  (forall y, (1 <= y < n)%nat ->
     nth y (npv_terms d 0 (V5.slb_cashflows p)) 0 = nth y (V5.fc_slb p) 0)
  /\
  nth n (npv_terms d 0 (V5.slb_cashflows p)) 0
    = (V5.cashflow p n + residual_value p) / (1 + d) ^ Z.of_nat n
  /\
  nth n (V5.fc_slb p) 0
    = V5.cashflow p n / (1 + d) ^ Z.of_nat n
      + residual_value p / (1 + d) ^ Z.of_nat n.
Proof.
  intros HN d n. subst d n.
  destruct (V5_series_year0 p HN) as (F0 & C0 & G0 & O0).
  split; [|split; [|split; [|split; [|split; [|split]]]]].
  - split; apply cumsum_last_fold;
      [apply V5_fc_slb_length | apply V5_fc_ongrid_length].
  - unfold V5.npv_slb, V5.npv_ongrid, calculate_npv.
    split; apply npv_from_terms.
  - rewrite !nth_npv_terms
      by (rewrite ?V5_slb_cashflows_length, ?V5_ongrid_cashflows_length; lia).
    cbn [Nat.add Z.of_nat]. rewrite F0, C0, G0, O0, pow_0_r.
    split; apply Qdiv_1_r.
  - intros y Hy.
    rewrite nth_npv_terms by (rewrite V5_ongrid_cashflows_length; lia).
    cbn [Nat.add]. symmetry. now apply V5_fc_ongrid_nth.
  - intros y Hy.
    rewrite nth_npv_terms by (rewrite V5_slb_cashflows_length; lia).
    cbn [Nat.add]. rewrite V5_fc_slb_nth, V5_slb_cashflows_nth by lia.
    destruct (Nat.eqb_spec y (analysis_years p)); [lia | reflexivity].
  - rewrite nth_npv_terms by (rewrite V5_slb_cashflows_length; lia).
    cbn [Nat.add]. rewrite V5_slb_cashflows_nth by lia.
    now rewrite Nat.eqb_refl.
  - rewrite V5_fc_slb_nth by lia. now rewrite Nat.eqb_refl.
Qed.

Lemma C10_npv_and_last_row_witness :
  (1 <= analysis_years default_params)%nat /\
  V5.npv_slb default_params
  = sumQ (npv_terms (discount_rate default_params) 0
            (V5.slb_cashflows default_params)).
Proof.
  assert (HN : (1 <= analysis_years default_params)%nat) by (vm_compute; lia).
  split; [exact HN|].
  exact (proj1 (proj1 (proj2 (C10_npv_and_last_row default_params HN)))).
Defined.

(** ** Payback year against the annual operating cost *)

Lemma payback_loop_lower_bound (l : list Q) (acc : Q) (i k : nat) :
  payback_loop acc i l = Some k -> (i <= k)%nat.
Proof.
  intros H. apply payback_loop_some in H. destruct H as (j & -> & _). lia.
Qed.

(** Smaller cash flows, entry by entry, never bring the payback forward. *)
Lemma payback_loop_mono (l1 l2 : list Q) :
  Forall2 Qle l2 l1 ->
  forall (acc1 acc2 : Q) (i : nat),
    acc2 <= acc1 ->
    payback_le (payback_loop acc1 i l1) (payback_loop acc2 i l2).
Proof.
  induction 1 as [|v2 v1 l2 l1 Hv Hl IH]; intros acc1 acc2 i Hacc.
  - exact I.
  - cbn [payback_loop].
    assert (Hc : acc2 + v2 <= acc1 + v1) by (apply Qplus_le_compat; assumption).
    destruct (Qle_bool 0 (acc1 + v1)) eqn:E1;
      destruct (Qle_bool 0 (acc2 + v2)) eqn:E2.
    + cbn. lia.
    + destruct (payback_loop (acc2 + v2) (S i) l2) as [k|] eqn:Ek; cbn;
        [|exact I].
      apply payback_loop_lower_bound in Ek. lia.
    + apply Qle_bool_iff in E2. apply Qle_bool_false in E1.
      exfalso. apply (Qlt_not_le _ _ E1). now apply Qle_trans with (acc2 + v2).
    + apply IH. exact Hc.
Qed.

Lemma add_last_Forall2_le (x : Q) (l1 l2 : list Q) :
  Forall2 Qle l1 l2 -> Forall2 Qle (add_last x l1) (add_last x l2).
Proof.
  induction 1 as [|a b l1 l2 Hab Hl IH]; [constructor|].
  destruct Hl as [|a' b' l1 l2 Hab' Hl].
  - cbn. constructor; [|constructor].
    apply Qplus_le_compat; [exact Hab | apply Qle_refl].
  - change (Forall2 Qle (a :: add_last x (a' :: l1))
                        (b :: add_last x (b' :: l2))).
    constructor; assumption.
Qed.

Lemma map_Forall2_le (f g : nat -> Q) (l : list nat) :
  (forall k, f k <= g k) -> Forall2 Qle (map f l) (map g l).
Proof. intros H. induction l; cbn; constructor; auto. Qed.

Lemma V5_slb_cashflows_opex_le (p : Params) (o : Q) :
  slb_opex p <= o ->
  Forall2 Qle (V5.slb_cashflows (set_slb_opex o p)) (V5.slb_cashflows p).
Proof.
  intros Ho. unfold V5.slb_cashflows. rewrite !V5_slb_loop_eq. cbn [snd].
  apply add_last_Forall2_le. constructor; [apply Qle_refl|].
  apply map_Forall2_le. intros k. unfold V5.cashflow.
  change (slb_opex (set_slb_opex o p)) with o.
  change (escalated_cost (set_slb_opex o p) k) with (escalated_cost p k).
  change (V5.escalated_revenue (set_slb_opex o p) k)
    with (V5.escalated_revenue p k).
  unfold Qminus. apply Qplus_le_compat; [apply Qle_refl|].
  now apply Qopp_le_compat.
Qed.

(** C8: of two runs that differ only in annualOpexSLB, the one with the
    larger annualOpexSLB has an SLB payback year greater than or equal to
    the other's, "not reached" counting as later than every year. *)
Theorem C8_payback_monotone_in_opex (p : Params) (o : Q) :
  slb_opex p <= o ->
  payback_le (V5.pb_slb p) (V5.pb_slb (set_slb_opex o p)).
Proof.
  intros Ho. unfold V5.pb_slb, calculate_payback.
  apply payback_loop_mono; [|apply Qle_refl].
  now apply V5_slb_cashflows_opex_le.
Qed.

Lemma C8_payback_monotone_in_opex_witness :
  slb_opex small_capex_params <= 800 /\
  payback_le (V5.pb_slb small_capex_params)
             (V5.pb_slb (set_slb_opex 800 small_capex_params)).
Proof.
  split; [vm_compute; discriminate|].
  apply (C8_payback_monotone_in_opex small_capex_params 800).
  vm_compute; discriminate.
Defined.

(** ** Two discount rates *)

Lemma pow_succ (b : Q) (n : nat) :
  pow b (Z.of_nat (S n)) == b * pow b (Z.of_nat n).
Proof.
  unfold pow. rewrite Nat2Z.inj_succ. unfold Z.succ.
  rewrite Z.add_comm, Qpower_plus' by lia. now rewrite Qpower_1_r.
Qed.

Lemma pow_pos (b : Q) (n : nat) : 0 < b -> 0 < pow b (Z.of_nat n).
Proof. intros Hb. unfold pow. now apply Qpower_0_lt. Qed.

Lemma pow_lt_base (a b : Q) (n : nat) :
  0 < a -> a < b -> pow a (Z.of_nat (S n)) < pow b (Z.of_nat (S n)).
Proof.
  intros Ha Hab. induction n as [|n IH].
  - unfold pow. cbn [Z.of_nat Pos.of_succ_nat]. now rewrite !Qpower_1_r.
  - rewrite (pow_succ a (S n)), (pow_succ b (S n)).
    assert (HA : 0 < pow a (Z.of_nat (S n))) by now apply pow_pos.
    apply Qlt_trans with (b * pow a (Z.of_nat (S n))).
    + now apply Qmult_lt_compat_r.
    + apply Qmult_lt_l; [now apply Qlt_trans with a | exact IH].
Qed.

(** A later year is discounted strictly more at the larger rate. *)
Lemma discount_factor_lt (d1 d2 : Q) (k : nat) :
  0 <= d1 -> d1 < d2 -> (1 <= k)%nat ->
  0 < / pow (1 + d2) (Z.of_nat k) /\
  / pow (1 + d2) (Z.of_nat k) < / pow (1 + d1) (Z.of_nat k).
Proof.
  intros H1 H12 Hk. destruct k as [|k]; [lia|].
  assert (Ha : 0 < 1 + d1) by lra.
  assert (Hb : 0 < 1 + d2) by lra.
  pose proof (pow_pos (1 + d1) (S k) Ha) as HP1.
  pose proof (pow_pos (1 + d2) (S k) Hb) as HP2.
  split.
  - exact (Qinv_lt_0_compat _ HP2).
  - apply (proj1 (Qinv_lt_contravar _ _ HP1 HP2)).
    apply pow_lt_base; [exact Ha | lra].
Qed.

Lemma Qmult_pos_zero (c u : Q) : 0 < u -> c * u == 0 -> c == 0.
Proof.
  intros Hu H. destruct (Qmult_integral _ _ H) as [E|E]; [exact E|].
  rewrite E in Hu. exfalso. apply (Qlt_irrefl _ Hu).
Qed.

(** With non-negative cash flows from year k >= 1 on, the discounted sum
    at the larger rate is the smaller one, and the two sums agree only when
    all the cash flows are zero. *)
Lemma npv_from_two_rates (d1 d2 : Q) (l : list Q) :
  0 <= d1 -> d1 < d2 ->
  Forall (fun c => 0 <= c) l ->
  forall k, (1 <= k)%nat ->
    npv_from d2 k l <= npv_from d1 k l /\
    (npv_from d1 k l == npv_from d2 k l -> Forall (fun c => c == 0) l).
Proof.
  intros H1 H12. induction 1 as [|c l Hc Hl IH]; intros k Hk.
  - cbn. split; [apply Qle_refl | constructor].
  - cbn [npv_from]. unfold Qdiv.
    destruct (discount_factor_lt d1 d2 k H1 H12 Hk) as [Hu2 Hu].
    destruct (IH (S k)) as [Hle Heq]; [lia|].
    set (u1 := / pow (1 + d1) (Z.of_nat k)) in *.
    set (u2 := / pow (1 + d2) (Z.of_nat k)) in *.
    set (n1 := npv_from d1 (S k) l) in *.
    set (n2 := npv_from d2 (S k) l) in *.
    assert (Hterm : c * u2 <= c * u1).
    { rewrite !(Qmult_comm c). apply Qmult_le_compat_r; [|exact Hc].
      now apply Qlt_le_weak. }
    split; [lra|]. intros E.
    assert (Ec : c * (u1 - u2) == 0) by lra.
    assert (En : n1 == n2) by lra.
    constructor.
    + apply (Qmult_pos_zero c (u1 - u2)); [lra | exact Ec].
    + apply Heq, En.
Qed.

Lemma npv_from_zero (d : Q) (l : list Q) (k : nat) :
  Forall (fun c => c == 0) l -> npv_from d k l == 0.
Proof.
  intros H. revert k. induction H as [|c l Hc Hl IH]; intros k.
  - reflexivity.
  - cbn [npv_from]. rewrite IH, Hc. unfold Qdiv. ring.
Qed.

Lemma npv_from_opp (d : Q) (l : list Q) (k : nat) :
  npv_from d k (map Qopp l) == - npv_from d k l.
Proof.
  revert k. induction l as [|c l IH]; intros k; cbn [map npv_from].
  - reflexivity.
  - rewrite IH. unfold Qdiv. ring.
Qed.

Lemma after_year0_Forall (P : Q -> Prop) (c : Q) (T : list Q) :
  (forall y, (1 <= y < length (c :: T))%nat -> P (nth y (c :: T) 0)) <->
  Forall P T.
Proof.
  split.
  - intros H. apply Forall_nth. intros i d Hi.
    rewrite (nth_indep T d 0 Hi). apply (H (S i)). cbn [length]. lia.
  - intros H [|y] Hy; [lia|]. cbn [nth].
    apply Forall_nth; [exact H|]. cbn [length] in Hy. lia.
Qed.

Lemma cumsum_from_step (l : list Q) (acc : Q) (y : nat) :
  (S y < length l)%nat ->
  nth (S y) (cumsum_from acc l) 0 =
  nth y (cumsum_from acc l) 0 + nth (S y) l 0.
Proof.
  revert acc y. induction l as [|x l IH]; intros acc y Hy.
  - cbn in Hy; lia.
  - cbn [cumsum_from nth]. destruct y as [|y].
    + destruct l as [|x' l]; [cbn in Hy; lia | reflexivity].
    + apply IH. cbn [length] in Hy. lia.
Qed.

Lemma cumsum_step (l : list Q) (y : nat) :
  (S y < length l)%nat ->
  nth (S y) (cumsum l) 0 = nth y (cumsum l) 0 + nth (S y) l 0.
Proof.
  destruct l as [|x l]; intros Hy; [cbn in Hy; lia|].
  cbn [cumsum nth]. destruct y as [|y].
  - destruct l as [|x' l]; [cbn in Hy; lia | reflexivity].
  - apply cumsum_from_step. cbn [length] in Hy. lia.
Qed.

(** Two series with the same year-0 entry have the same running sums
    exactly when they have the same entries. *)
Lemma cumsum_equal_iff (D1 D2 : list Q) (n : nat) :
  length D1 = S n -> length D2 = S n ->
  nth 0 D1 0 == nth 0 D2 0 ->
  ((forall y, (y <= n)%nat -> nth y (cumsum D1) 0 == nth y (cumsum D2) 0)
   <->
   (forall y, (1 <= y <= n)%nat -> nth y D1 0 == nth y D2 0)).
Proof.
  intros L1 L2 H0. split.
  - intros H [|y] Hy; [lia|].
    pose proof (H (S y) (proj2 Hy)) as ES.
    assert (Hy' : (y <= n)%nat) by lia.
    pose proof (H y Hy') as Ey.
    rewrite !cumsum_step in ES by lia. lra.
  - intros H y. induction y as [|y IH]; intros Hy.
    + now rewrite !cumsum_nth_0.
    + rewrite !cumsum_step by lia.
      rewrite IH by lia. rewrite (H (S y)) by lia. reflexivity.
Qed.

(** ** Runs that differ only in the discount rate *)

Lemma V5_slb_cashflows_discount_rate (p : Params) (d : Q) :
  V5.slb_cashflows (set_discount_rate d p) = V5.slb_cashflows p.
Proof. unfold V5.slb_cashflows. rewrite !V5_slb_loop_eq. reflexivity. Qed.

Lemma V5_ongrid_cashflows_discount_rate (p : Params) (d : Q) :
  V5.ongrid_cashflows (set_discount_rate d p) = V5.ongrid_cashflows p.
Proof.
  unfold V5.ongrid_cashflows. rewrite !V5_ongrid_loop_eq. reflexivity.
Qed.

Lemma escalated_cost_nonneg (p : Params) (year : nat) :
  0 <= electricity_price p -> 0 <= annual_energy p -> 0 <= inflation_rate p ->
  0 <= escalated_cost p year.
Proof.
  intros Hp He Hi. unfold escalated_cost, pow.
  apply Qmult_le_0_compat; [|exact He].
  apply Qmult_le_0_compat; [exact Hp|].
  apply Qpower_0_le. lra.
Qed.

(** C7, as stated, fails: with an electricity price of 0 every grid-only
    cash flow is 0, and the grid-only cumulative discounted series is the
    same (all 0) at a discount rate of 8 percent and of 10 percent. *)
Lemma C7_series_unchanged_at_zero_price :
  ~ (forall (lib_irr : list Q -> result irr_value) (p : Params) (d : Q),
        0 <= discount_rate p -> 0 <= d -> ~ discount_rate p == d ->
        (V5.slb_cashflows (set_discount_rate d p) = V5.slb_cashflows p /\
         V5.ongrid_cashflows (set_discount_rate d p) = V5.ongrid_cashflows p /\
         V5.irr_slb lib_irr (set_discount_rate d p) = V5.irr_slb lib_irr p /\
         V5.irr_ongrid lib_irr (set_discount_rate d p)
           = V5.irr_ongrid lib_irr p /\
         V5.pb_slb (set_discount_rate d p) = V5.pb_slb p /\
         V5.pb_ongrid (set_discount_rate d p) = V5.pb_ongrid p)
        /\ ~ V5.npv_slb p == V5.npv_slb (set_discount_rate d p)
        /\ ~ V5.npv_ongrid p == V5.npv_ongrid (set_discount_rate d p)
        /\ ~ (forall y, (y <= analysis_years p)%nat ->
                nth y (V5.results_slb p) 0 ==
                nth y (V5.results_slb (set_discount_rate d p)) 0)
        /\ ~ (forall y, (y <= analysis_years p)%nat ->
                nth y (V5.results_ongrid p) 0 ==
                nth y (V5.results_ongrid (set_discount_rate d p)) 0)).
Proof.
  intros H.
  destruct (H (fun _ => Ok NotANumber) free_power_params (1 # 10))
    as (_ & _ & _ & _ & Hseries).
  - vm_compute; discriminate.
  - vm_compute; discriminate.
  - vm_compute; discriminate.
  - apply Hseries. intros y Hy.
    do 16 (destruct y as [|y]; [vm_compute; reflexivity|]).
    vm_compute in Hy. lia.
Qed.

Lemma cumulative_unchanged_when_zero (d1 d2 : Q) (L D1 D2 : list Q)
  (n : nat) :
  length L = S n -> length D1 = S n -> length D2 = S n ->
  (forall j, nth j D1 0 == nth j L 0 / pow (1 + d1) (Z.of_nat j)) ->
  (forall j, nth j D2 0 == nth j L 0 / pow (1 + d2) (Z.of_nat j)) ->
  zero_after_year0 L ->
  forall y, (y <= n)%nat -> nth y (cumsum D1) 0 == nth y (cumsum D2) 0.
Proof.
  intros HL HD1 HD2 P1 P2 Hz.
  apply (cumsum_equal_iff D1 D2 n HD1 HD2).
  - rewrite P1, P2. cbn [Z.of_nat]. now rewrite !pow_0_r.
  - intros y Hy. rewrite P1, P2, (Hz y) by (rewrite HL; lia).
    now rewrite !Qdiv_0_l.
Qed.

Lemma npv_unchanged_when_zero (d1 d2 : Q) (L : list Q) :
  zero_after_year0 L -> calculate_npv L d1 == calculate_npv L d2.
Proof.
  intros Hz. unfold calculate_npv. destruct L as [|c T]; [reflexivity|].
  apply (after_year0_Forall (fun x => x == 0)) in Hz.
  cbn [npv_from Z.of_nat]. now rewrite !pow_0_r, !npv_from_zero.
Qed.

(** C7 (amended): of two runs that differ only in discountRate, every
    nominal cash flow of both scenarios, and the IRR and the payback year
    of both scenarios, are identical.  The NPV and the cumulative
    discounted series are computed from discountRate: they are unchanged
    across the two runs when every nominal cash flow of the scenario after
    year 0 is zero, and they do change on other inputs, as at the widget
    defaults between 8 and 10 percent. *)
Theorem C7_discount_rate_only (lib_irr : list Q -> result irr_value)
  (p : Params) (d : Q) :
  (V5.slb_cashflows (set_discount_rate d p) = V5.slb_cashflows p /\
   V5.ongrid_cashflows (set_discount_rate d p) = V5.ongrid_cashflows p /\
   V5.irr_slb lib_irr (set_discount_rate d p) = V5.irr_slb lib_irr p /\
   V5.irr_ongrid lib_irr (set_discount_rate d p) = V5.irr_ongrid lib_irr p /\
   V5.pb_slb (set_discount_rate d p) = V5.pb_slb p /\
   V5.pb_ongrid (set_discount_rate d p) = V5.pb_ongrid p)
  /\
  (zero_after_year0 (V5.slb_cashflows p) ->
   (forall y, (y <= analysis_years p)%nat ->
      nth y (V5.results_slb p) 0 ==
      nth y (V5.results_slb (set_discount_rate d p)) 0) /\
   V5.npv_slb p == V5.npv_slb (set_discount_rate d p))
  /\
  (zero_after_year0 (V5.ongrid_cashflows p) ->
   (forall y, (y <= analysis_years p)%nat ->
      nth y (V5.results_ongrid p) 0 ==
      nth y (V5.results_ongrid (set_discount_rate d p)) 0) /\
   V5.npv_ongrid p == V5.npv_ongrid (set_discount_rate d p))
  /\
  (exists (p0 : Params) (d0 : Q),
      ~ V5.npv_slb p0 == V5.npv_slb (set_discount_rate d0 p0) /\
      ~ V5.npv_ongrid p0 == V5.npv_ongrid (set_discount_rate d0 p0) /\
      ~ nth 1 (V5.results_slb p0) 0
        == nth 1 (V5.results_slb (set_discount_rate d0 p0)) 0 /\
      ~ nth 1 (V5.results_ongrid p0) 0
        == nth 1 (V5.results_ongrid (set_discount_rate d0 p0)) 0).
Proof.
  split; [|split; [|split]].
  - unfold V5.irr_slb, V5.irr_ongrid, V5.pb_slb, V5.pb_ongrid.
    rewrite V5_slb_cashflows_discount_rate,
      V5_ongrid_cashflows_discount_rate.
    repeat split; reflexivity.
  - intros Hz. split.
    + unfold V5.results_slb.
      apply (cumulative_unchanged_when_zero (discount_rate p) d
               (V5.slb_cashflows p)).
      * apply V5_slb_cashflows_length.
      * apply V5_fc_slb_length.
      * apply (V5_fc_slb_length (set_discount_rate d p)).
      * apply V5_fc_slb_pointwise.
      * intros j. rewrite <- (V5_slb_cashflows_discount_rate p d).
        apply (V5_fc_slb_pointwise (set_discount_rate d p)).
      * exact Hz.
    + unfold V5.npv_slb. rewrite V5_slb_cashflows_discount_rate.
      now apply npv_unchanged_when_zero.
  - intros Hz. split.
    + unfold V5.results_ongrid.
      apply (cumulative_unchanged_when_zero (discount_rate p) d
               (V5.ongrid_cashflows p)).
      * apply V5_ongrid_cashflows_length.
      * apply V5_fc_ongrid_length.
      * apply (V5_fc_ongrid_length (set_discount_rate d p)).
      * apply V5_fc_ongrid_pointwise.
      * intros j. rewrite <- (V5_ongrid_cashflows_discount_rate p d).
        apply (V5_fc_ongrid_pointwise (set_discount_rate d p)).
      * exact Hz.
    + unfold V5.npv_ongrid. rewrite V5_ongrid_cashflows_discount_rate.
      now apply npv_unchanged_when_zero.
  - exists default_params, (1 # 10).
    split; [|split; [|split]]; intros H; vm_compute in H; discriminate H.
Qed.

(** * Further properties of the scripts *)

(** ** Shape of the series of the first script of v4.py *)

Lemma V4_slb_loop_eq (p : Params) :
  V4.slb_loop p =
  (- slb_total_capex p :: map (V4.discounted_cashflow p) (years p),
   - slb_total_capex p :: map (V4.cashflow p) (years p)).
Proof. unfold V4.slb_loop. now rewrite append_loop2_map. Qed.

Lemma V4_ongrid_loop_eq (p : Params) :
  V4.ongrid_loop p =
  (0 :: map (V4.ongrid_discounted p) (years p),
   0 :: map (fun year => - escalated_cost p year) (years p)).
Proof. unfold V4.ongrid_loop. now rewrite append_loop2_map. Qed.

Lemma years_length (p : Params) : length (years p) = analysis_years p.
Proof. unfold years. apply length_seq. Qed.

(** X1: in the second script of v4.py the nominal and the discounted
    series of both scenarios and the two columns of the results table all
    have analysis_years + 1 entries, one per row of the Year column. *)
Theorem X1_series_lengths (p : Params) :
  length (V5.fc_slb p) = S (analysis_years p) /\
  length (V5.slb_cashflows p) = S (analysis_years p) /\
  length (V5.fc_ongrid p) = S (analysis_years p) /\
  length (V5.ongrid_cashflows p) = S (analysis_years p) /\
  length (V5.results_slb p) = S (analysis_years p) /\
  length (V5.results_ongrid p) = S (analysis_years p).
Proof.
  repeat split.
  - apply V5_fc_slb_length.
  - apply V5_slb_cashflows_length.
  - apply V5_fc_ongrid_length.
  - apply V5_ongrid_cashflows_length.
  - apply V5_results_slb_length.
  - apply V5_results_ongrid_length.
Qed.

(** ** Year 0 *)

Lemma V5_slb_cashflows_head (p : Params) :
  (1 <= analysis_years p)%nat ->
  exists rest, V5.slb_cashflows p = - slb_total_capex p :: rest.
Proof.
  intros HN. unfold V5.slb_cashflows. rewrite V5_slb_loop_eq. cbn [snd].
  unfold years. destruct (analysis_years p) as [|n]; [lia|].
  cbn [seq map]. eexists. reflexivity.
Qed.

Lemma V5_results_year0 (p : Params) :
  (1 <= analysis_years p)%nat ->
  nth 0 (V5.results_slb p) 0 = - slb_total_capex p /\
  nth 0 (V5.results_ongrid p) 0 = 0.
Proof.
  intros HN. unfold V5.results_slb, V5.results_ongrid.
  rewrite !cumsum_nth_0. split.
  - unfold V5.fc_slb. rewrite nth_add_last, V5_slb_loop_eq. cbn [fst length].
    rewrite length_map, years_length.
    destruct (Nat.eqb_spec 1 (S (analysis_years p))) as [E|_]; [lia|].
    reflexivity.
  - unfold V5.fc_ongrid. rewrite V5_ongrid_loop_eq. reflexivity.
Qed.

(** X2: the payback year of the grid-only scenario is 0 on every input, in
    both scripts of v4.py: its nominal series starts with 0, so the running
    sum is already >= 0 at the first entry. *)
Theorem X2_grid_payback_is_year0 (p : Params) :
  V5.pb_ongrid p = Some 0%nat /\ V4.pb_ongrid p = Some 0%nat.
Proof.
  unfold V5.pb_ongrid, V5.ongrid_cashflows, V4.pb_ongrid, V4.ongrid_cashflows.
  rewrite V5_ongrid_loop_eq, V4_ongrid_loop_eq. split; reflexivity.
Qed.

(** X3: with a horizon of at least one year, the payback year of the SLB
    scenario is 0 exactly when the total capital expenditure is <= 0; for
    the sidebar's ranges (both capex >= 0) that is when both are 0. *)
Theorem X3_slb_payback_year0_iff (p : Params) :
  (1 <= analysis_years p)%nat ->
  (V5.pb_slb p = Some 0%nat <->
   slb_capex_pv p + slb_capex_battery p <= 0).
Proof.
  intros HN. destruct (V5_slb_cashflows_head p HN) as [rest E].
  unfold V5.pb_slb, calculate_payback. rewrite E. cbn [payback_loop].
  fold (slb_total_capex p).
  destruct (Qle_bool 0 (0 + - slb_total_capex p)) eqn:B.
  - apply Qle_bool_iff in B. split; [intros _; lra | reflexivity].
  - apply Qle_bool_false in B. split.
    + intros H. apply payback_loop_lower_bound in H. lia.
    + intros H. lra.
Qed.

Lemma X3_slb_payback_year0_iff_witness :
  (1 <= analysis_years free_capex_params)%nat /\
  V5.pb_slb free_capex_params = Some 0%nat.
Proof.
  assert (HN : (1 <= analysis_years free_capex_params)%nat)
    by (vm_compute; lia).
  split; [exact HN|].
  apply (proj2 (X3_slb_payback_year0_iff free_capex_params HN)).
  vm_compute; discriminate.
Defined.

(** X4: with a horizon of at least one year and a total capital
    expenditure >= 0, the crossover year is never year 0. *)
Theorem X4_crossover_after_year0 (p : Params) (k : nat) :
  (1 <= analysis_years p)%nat ->
  0 <= slb_capex_pv p + slb_capex_battery p ->
  V5.crossover_point p = Some k -> (1 <= k)%nat.
Proof.
  intros HN Hcap H. destruct k as [|k]; [|lia]. exfalso.
  unfold V5.crossover_point, calculate_crossover in H.
  apply crossover_loop_some in H.
  destruct H as (j & Hj & _ & Hgt & _).
  assert (j = 0)%nat as -> by lia.
  destruct (V5_results_zip p) as [_ Hnth]. rewrite Hnth in Hgt.
  destruct (V5_results_year0 p HN) as [E1 E2]. cbn [fst snd] in Hgt.
  rewrite E1, E2 in Hgt. unfold slb_total_capex in Hgt. lra.
Qed.

Lemma X4_crossover_after_year0_witness :
  (1 <= analysis_years small_capex_params)%nat /\
  0 <= slb_capex_pv small_capex_params + slb_capex_battery small_capex_params
  /\ V5.crossover_point small_capex_params = Some 3%nat /\ (1 <= 3)%nat.
Proof.
  assert (HN : (1 <= analysis_years small_capex_params)%nat)
    by (vm_compute; lia).
  assert (Hc : 0 <= slb_capex_pv small_capex_params
                    + slb_capex_battery small_capex_params)
    by (vm_compute; discriminate).
  assert (Hx : V5.crossover_point small_capex_params = Some 3%nat)
    by (vm_compute; reflexivity).
  repeat split; try assumption.
  exact (X4_crossover_after_year0 small_capex_params 3 HN Hc Hx).
Defined.

(** ** Residual value of 0 *)

(** X6: with residual_value_percent = 0 the nominal SLB cash flow of every
    year 1..analysis_years, the final one included, is
    escalated cost + escalated revenue - opex: there is no terminal bump. *)
Theorem X6_no_residual_no_bump (p : Params) (y : nat) :
  residual_value_percent p == 0 ->
  (1 <= y <= analysis_years p)%nat ->
  nth y (V5.slb_cashflows p) 0 == spec_netCashFlow p y.
Proof.
  intros Hr Hy. rewrite V5_slb_cashflows_nth by exact Hy.
  change (V5.cashflow p y) with (spec_netCashFlow p y).
  destruct (y =? analysis_years p)%nat; [|reflexivity].
  unfold residual_value. rewrite Hr. ring.
Qed.

Lemma X6_no_residual_no_bump_witness :
  residual_value_percent no_residual_params == 0 /\
  (1 <= 15 <= analysis_years no_residual_params)%nat /\
  nth 15 (V5.slb_cashflows no_residual_params) 0
    == spec_netCashFlow no_residual_params 15.
Proof.
  assert (Hr : residual_value_percent no_residual_params == 0)
    by (vm_compute; reflexivity).
  assert (Hy : (1 <= 15 <= analysis_years no_residual_params)%nat)
    by (vm_compute; lia).
  split; [exact Hr|]. split; [exact Hy|].
  exact (X6_no_residual_no_bump no_residual_params 15 Hr Hy).
Defined.

(** ** The second script of v4.py against the first *)

Lemma Forall2_Qeq_Qle (l1 l2 : list Q) :
  Forall2 Qeq l1 l2 -> Forall2 Qle l1 l2 /\ Forall2 Qle l2 l1.
Proof.
  induction 1 as [|a b l1 l2 Hab _ [IH1 IH2]]; split; constructor;
    try assumption; rewrite Hab; apply Qle_refl.
Qed.

Lemma payback_le_antisym (a b : option nat) :
  payback_le a b -> payback_le b a -> a = b.
Proof.
  destruct a as [x|], b as [y|]; cbn; intros H1 H2;
    try contradiction; [f_equal; lia | reflexivity].
Qed.

(** [calculate_payback] does not tell equal rationals apart. *)
Lemma calculate_payback_Qeq (l1 l2 : list Q) :
  Forall2 Qeq l1 l2 -> calculate_payback l1 = calculate_payback l2.
Proof.
  intros H. destruct (Forall2_Qeq_Qle l1 l2 H) as [H12 H21].
  unfold calculate_payback. apply payback_le_antisym.
  - apply payback_loop_mono; [exact H21 | apply Qle_refl].
  - apply payback_loop_mono; [exact H12 | apply Qle_refl].
Qed.

Lemma npv_from_Qeq (d : Q) (l1 l2 : list Q) :
  Forall2 Qeq l1 l2 -> forall k, npv_from d k l1 == npv_from d k l2.
Proof.
  induction 1 as [|a b l1 l2 Hab _ IH]; intros k; cbn [npv_from].
  - reflexivity.
  - now rewrite Hab, IH.
Qed.

Lemma cumsum_from_Forall2 (l1 l2 : list Q) :
  Forall2 Qeq l1 l2 ->
  forall a b, a == b -> Forall2 Qeq (cumsum_from a l1) (cumsum_from b l2).
Proof.
  induction 1 as [|x y l1 l2 Hxy _ IH]; intros a b Hab; cbn [cumsum_from].
  - constructor.
  - constructor; [now rewrite Hab, Hxy|]. apply IH. now rewrite Hab, Hxy.
Qed.

Lemma cumsum_Forall2 (l1 l2 : list Q) :
  Forall2 Qeq l1 l2 -> Forall2 Qeq (cumsum l1) (cumsum l2).
Proof.
  intros [|x y l1' l2' Hxy H]; cbn [cumsum]; constructor; [exact Hxy|].
  now apply cumsum_from_Forall2.
Qed.

Lemma V5_cashflow_V4 (p : Params) (year : nat) :
  V5.energy_for_sale_per_month p == 0 ->
  V5.cashflow p year == V4.cashflow p year.
Proof.
  intros H. unfold V5.cashflow, V4.cashflow, V5.escalated_revenue.
  rewrite H. ring.
Qed.

(** X7: when no energy is for sale (energy_for_sale_per_month = 0, as with
    no day without charging or a charge level of 100 percent) the second
    script of v4.py computes what the first does: the same nominal and
    discounted SLB series and table column, year by year, and the same SLB
    payback year and NPV. *)
Theorem X7_no_feed_in_is_first_script (p : Params) :
  V5.energy_for_sale_per_month p == 0 ->
  Forall2 Qeq (V5.slb_cashflows p) (V4.slb_cashflows p) /\
  Forall2 Qeq (V5.fc_slb p) (V4.fc_slb p) /\
  Forall2 Qeq (V5.results_slb p) (V4.results_slb p) /\
  V5.pb_slb p = V4.pb_slb p /\
  V5.npv_slb p == V4.npv_slb p.
Proof.
  intros H.
  assert (Hn : Forall2 Qeq (V5.slb_cashflows p) (V4.slb_cashflows p)).
  { unfold V5.slb_cashflows, V4.slb_cashflows.
    rewrite V5_slb_loop_eq, V4_slb_loop_eq. cbn [snd].
    apply add_last_Forall2. constructor; [reflexivity|].
    apply map_Forall2. intros k. now apply V5_cashflow_V4. }
  assert (Hd : Forall2 Qeq (V5.fc_slb p) (V4.fc_slb p)).
  { unfold V5.fc_slb, V4.fc_slb.
    rewrite V5_slb_loop_eq, V4_slb_loop_eq. cbn [fst].
    apply add_last_Forall2. constructor; [reflexivity|].
    apply map_Forall2. intros k.
    unfold V5.discounted_cashflow, V4.discounted_cashflow.
    now rewrite V5_cashflow_V4. }
  repeat split.
  - exact Hn.
  - exact Hd.
  - now apply cumsum_Forall2.
  - now apply calculate_payback_Qeq.
  - unfold V5.npv_slb, V4.npv_slb, calculate_npv. now apply npv_from_Qeq.
Qed.

Lemma X7_no_feed_in_is_first_script_witness :
  V5.energy_for_sale_per_month no_feed_in_params == 0 /\
  V5.pb_slb no_feed_in_params = V4.pb_slb no_feed_in_params.
Proof.
  assert (H : V5.energy_for_sale_per_month no_feed_in_params == 0)
    by (vm_compute; reflexivity).
  split; [exact H|].
  apply (X7_no_feed_in_is_first_script no_feed_in_params H).
Defined.

Lemma escalated_revenue_nonneg (p : Params) (year : nat) :
  0 <= electricity_price p -> 0 <= inflation_rate p ->
  0 <= V5.energy_for_sale_per_month p ->
  0 <= V5.escalated_revenue p year.
Proof.
  intros Hp Hi He. unfold V5.escalated_revenue, V5.feed_in_tariff, pow.
  apply Qmult_le_0_compat; [|discriminate].
  apply Qmult_le_0_compat; [|exact He].
  apply Qmult_le_0_compat.
  - apply Qmult_le_0_compat; [discriminate | exact Hp].
  - apply Qpower_0_le. lra.
Qed.

(** X8: for a non-negative electricity price, inflation rate and energy
    for sale, the feed-in revenue never delays the payback: the SLB payback
    year of the second script of v4.py is at most that of the first script
    on the same inputs ("not reached" being later than every year). *)
Theorem X8_feed_in_never_delays_payback (p : Params) :
  0 <= electricity_price p -> 0 <= inflation_rate p ->
  0 <= V5.energy_for_sale_per_month p ->
  payback_le (V5.pb_slb p) (V4.pb_slb p).
Proof.
  intros Hp Hi He. unfold V5.pb_slb, V4.pb_slb, calculate_payback.
  apply payback_loop_mono; [|apply Qle_refl].
  unfold V5.slb_cashflows, V4.slb_cashflows.
  rewrite V5_slb_loop_eq, V4_slb_loop_eq. cbn [snd].
  apply add_last_Forall2_le. constructor; [apply Qle_refl|].
  apply map_Forall2_le. intros k. unfold V5.cashflow, V4.cashflow.
  pose proof (escalated_revenue_nonneg p k Hp Hi He). lra.
Qed.

Lemma X8_feed_in_never_delays_payback_witness :
  0 <= electricity_price small_capex_params /\
  0 <= inflation_rate small_capex_params /\
  0 <= V5.energy_for_sale_per_month small_capex_params /\
  payback_le (V5.pb_slb small_capex_params) (V4.pb_slb small_capex_params).
Proof.
  assert (Hp : 0 <= electricity_price small_capex_params)
    by (vm_compute; discriminate).
  assert (Hi : 0 <= inflation_rate small_capex_params)
    by (vm_compute; discriminate).
  assert (He : 0 <= V5.energy_for_sale_per_month small_capex_params)
    by (vm_compute; discriminate).
  split; [exact Hp|]. split; [exact Hi|]. split; [exact He|].
  exact (X8_feed_in_never_delays_payback small_capex_params Hp Hi He).
Defined.

(** ** A discount rate of 0 *)

Lemma pow_rate_zero (d : Q) (k : Z) : d == 0 -> pow (1 + d) k == 1.
Proof.
  intros Hd. unfold pow.
  assert (E : 1 + d == 1) by (rewrite Hd; ring).
  rewrite E. apply Qpower_1.
Qed.

Lemma cumsum_from_nth (l : list Q) (acc : Q) (y : nat) :
  (y < length l)%nat ->
  nth y (cumsum_from acc l) 0 = fold_left Qplus (firstn (S y) l) acc.
Proof.
  revert acc y. induction l as [|x l IH]; intros acc y Hy.
  - cbn in Hy; lia.
  - destruct y as [|y].
    + reflexivity.
    + cbn [cumsum_from nth]. rewrite IH by (cbn [length] in Hy; lia).
      reflexivity.
Qed.

Lemma fold_left_Qplus_acc (l : list Q) (a b : Q) :
  a == b -> fold_left Qplus l a == fold_left Qplus l b.
Proof.
  revert a b. induction l as [|x l IH]; intros a b Hab; cbn [fold_left].
  - exact Hab.
  - apply IH. now rewrite Hab.
Qed.

(** The table column is the running sum of the series it accumulates. *)
Lemma cumsum_running_sum (l : list Q) (y : nat) :
  (y < length l)%nat -> nth y (cumsum l) 0 == running_sum l y.
Proof.
  destruct l as [|x l]; intros Hy; [cbn in Hy; lia|].
  unfold running_sum. destruct y as [|y].
  - cbn. ring.
  - cbn [cumsum nth]. rewrite cumsum_from_nth by (cbn [length] in Hy; lia).
    change (firstn (S (S y)) (x :: l)) with (x :: firstn (S y) l).
    cbn [fold_left]. apply fold_left_Qplus_acc. ring.
Qed.

Lemma undiscounted_series (p : Params) (D L : list Q) (n : nat) :
  discount_rate p == 0 ->
  length D = S n -> length L = S n ->
  (forall j, nth j D 0 ==
             nth j L 0 / pow (1 + discount_rate p) (Z.of_nat j)) ->
  forall y, (y <= n)%nat ->
    nth y D 0 == nth y L 0 /\ nth y (cumsum D) 0 == running_sum L y.
Proof.
  intros Hd HD HL Hpt.
  assert (Hent : forall y, nth y D 0 == nth y L 0).
  { intros y. rewrite Hpt, pow_rate_zero by exact Hd. apply Qdiv_1_r. }
  intros y Hy. split; [apply Hent|].
  rewrite <- cumsum_running_sum by lia.
  apply (proj2 (cumsum_equal_iff D L n HD HL (Hent 0%nat)));
    [intros z _; apply Hent | exact Hy].
Qed.

(** X9: at a discount rate of 0 discounting does nothing: for both
    scenarios and every year 0..analysis_years the discounted cash flow
    equals the nominal one, and the entry of the results table is the
    running sum of the nominal cash flows through that year, the sum the
    payback year is computed on. *)
Theorem X9_zero_discount_rate (p : Params) (y : nat) :
  discount_rate p == 0 ->
  (y <= analysis_years p)%nat ->
  nth y (V5.fc_slb p) 0 == nth y (V5.slb_cashflows p) 0 /\
  nth y (V5.results_slb p) 0 == running_sum (V5.slb_cashflows p) y /\
  nth y (V5.fc_ongrid p) 0 == nth y (V5.ongrid_cashflows p) 0 /\
  nth y (V5.results_ongrid p) 0 == running_sum (V5.ongrid_cashflows p) y.
Proof.
  intros Hd Hy.
  destruct (undiscounted_series p (V5.fc_slb p) (V5.slb_cashflows p)
              (analysis_years p) Hd (V5_fc_slb_length p)
              (V5_slb_cashflows_length p) (V5_fc_slb_pointwise p) y Hy)
    as [A B].
  destruct (undiscounted_series p (V5.fc_ongrid p) (V5.ongrid_cashflows p)
              (analysis_years p) Hd (V5_fc_ongrid_length p)
              (V5_ongrid_cashflows_length p) (V5_fc_ongrid_pointwise p) y Hy)
    as [C D].
  unfold V5.results_slb, V5.results_ongrid. auto.
Qed.

Lemma X9_zero_discount_rate_witness :
  discount_rate zero_rate_params == 0 /\
  (15 <= analysis_years zero_rate_params)%nat /\
  nth 15 (V5.results_slb zero_rate_params) 0
  == running_sum (V5.slb_cashflows zero_rate_params) 15.
Proof.
  assert (Hd : discount_rate zero_rate_params == 0)
    by (vm_compute; reflexivity).
  assert (Hy : (15 <= analysis_years zero_rate_params)%nat)
    by (vm_compute; lia).
  split; [exact Hd|]. split; [exact Hy|].
  exact (proj1 (proj2 (X9_zero_discount_rate zero_rate_params 15 Hd Hy))).
Defined.

(** ** The grid-only scenario *)

Lemma escalated_cost_same_grid_inputs (p q : Params) (year : nat) :
  same_grid_inputs p q -> escalated_cost p year = escalated_cost q year.
Proof.
  intros (_ & _ & Hi & Hb & Hc & Hs & He).
  unfold escalated_cost, annual_energy, monthly_consumption.
  now rewrite Hi, Hb, Hc, Hs, He.
Qed.

(** X10: the grid-only scenario reads nothing of the SLB system: two runs
    that agree on the horizon, the discount and inflation rates, the EV
    usage values and the electricity price (and may differ in the capital
    and operating costs, the residual value and the feed-in values) have
    the same grid-only nominal and discounted series, table column, NPV
    and payback year. *)
Theorem X10_grid_ignores_slb_inputs (p q : Params) :
  same_grid_inputs p q ->
  V5.ongrid_cashflows p = V5.ongrid_cashflows q /\
  V5.fc_ongrid p = V5.fc_ongrid q /\
  V5.results_ongrid p = V5.results_ongrid q /\
  V5.npv_ongrid p = V5.npv_ongrid q /\
  V5.pb_ongrid p = V5.pb_ongrid q.
Proof.
  intros H.
  assert (Hn : V5.ongrid_cashflows p = V5.ongrid_cashflows q).
  { unfold V5.ongrid_cashflows. rewrite !V5_ongrid_loop_eq. cbn [snd].
    pose proof H as (Hy & _). unfold years. rewrite Hy. f_equal.
    apply map_ext. intros y. f_equal.
    apply escalated_cost_same_grid_inputs. exact H. }
  assert (Hd : V5.fc_ongrid p = V5.fc_ongrid q).
  { unfold V5.fc_ongrid. rewrite !V5_ongrid_loop_eq. cbn [fst].
    pose proof H as (Hy & Hr & _). unfold years. rewrite Hy. f_equal.
    apply map_ext. intros y. unfold V5.ongrid_discounted.
    rewrite Hr. f_equal. f_equal.
    apply escalated_cost_same_grid_inputs. exact H. }
  repeat split.
  - exact Hn.
  - exact Hd.
  - unfold V5.results_ongrid. now rewrite Hd.
  - unfold V5.npv_ongrid. rewrite Hn.
    destruct H as (_ & Hr & _). now rewrite Hr.
  - unfold V5.pb_ongrid. now rewrite Hn.
Qed.

Lemma X10_grid_ignores_slb_inputs_witness :
  same_grid_inputs default_params small_capex_params /\
  V5.results_ongrid default_params = V5.results_ongrid small_capex_params.
Proof.
  assert (H : same_grid_inputs default_params small_capex_params)
    by (repeat split).
  split; [exact H|].
  apply (X10_grid_ignores_slb_inputs default_params small_capex_params H).
Defined.

Lemma discounted_outflow_nonpos (c P : Q) : 0 <= c -> 0 < P -> - c / P <= 0.
Proof.
  intros Hc HP. unfold Qdiv.
  pose proof (Qinv_lt_0_compat P HP) as Hi.
  pose proof (Qmult_le_0_compat c (/ P) Hc (Qlt_le_weak _ _ Hi)) as H.
  setoid_replace (- c * / P) with (- (c * / P)) by ring. lra.
Qed.

Lemma V5_fc_ongrid_nonpos (p : Params) (y : nat) :
  0 <= electricity_price p -> 0 <= annual_energy p ->
  0 <= inflation_rate p -> 0 <= discount_rate p ->
  nth y (V5.fc_ongrid p) 0 <= 0.
Proof.
  intros Hp He Hi Hd. unfold V5.fc_ongrid. rewrite V5_ongrid_loop_eq.
  cbn [fst]. unfold years.
  destruct (Nat.eq_dec y 0) as [->|Hy0]; [apply Qle_refl|].
  destruct (le_lt_dec y (analysis_years p)) as [Hle|Hgt].
  - rewrite nth_cons_map_seq by lia. unfold V5.ongrid_discounted.
    apply discounted_outflow_nonpos.
    + now apply escalated_cost_nonneg.
    + apply pow_pos. lra.
  - rewrite nth_overflow; [apply Qle_refl|].
    cbn [length]. rewrite length_map, length_seq. lia.
Qed.

(** X11: for a non-negative electricity price, annual energy, inflation
    rate and discount rate, the grid-only column of the results table
    starts at 0, never rises from one year to the next and is <= 0 in
    every year; the grid-only NPV is <= 0. *)
Theorem X11_grid_series_nonincreasing (p : Params) :
  0 <= electricity_price p -> 0 <= annual_energy p ->
  0 <= inflation_rate p -> 0 <= discount_rate p ->
  nth 0 (V5.results_ongrid p) 0 = 0 /\
  (forall y, (y < analysis_years p)%nat ->
     nth (S y) (V5.results_ongrid p) 0 <= nth y (V5.results_ongrid p) 0) /\
  (forall y, (y <= analysis_years p)%nat ->
     nth y (V5.results_ongrid p) 0 <= 0) /\
  V5.npv_ongrid p <= 0.
Proof.
  intros Hp He Hi Hd.
  assert (H0 : nth 0 (V5.results_ongrid p) 0 = 0).
  { unfold V5.results_ongrid. rewrite cumsum_nth_0.
    unfold V5.fc_ongrid. rewrite V5_ongrid_loop_eq. reflexivity. }
  assert (Hstep : forall y, (y < analysis_years p)%nat ->
     nth (S y) (V5.results_ongrid p) 0 <= nth y (V5.results_ongrid p) 0).
  { intros y Hy. unfold V5.results_ongrid.
    rewrite cumsum_step by (rewrite V5_fc_ongrid_length; lia).
    pose proof (V5_fc_ongrid_nonpos p (S y) Hp He Hi Hd). lra. }
  assert (Hall : forall y, (y <= analysis_years p)%nat ->
     nth y (V5.results_ongrid p) 0 <= 0).
  { induction y as [|y IH]; intros Hy.
    - rewrite H0. apply Qle_refl.
    - apply Qle_trans with (nth y (V5.results_ongrid p) 0).
      + apply Hstep. lia.
      + apply IH. lia. }
  repeat split; try assumption.
  rewrite (npv_is_last_cumulative (discount_rate p)
             (V5.ongrid_cashflows p) (V5.fc_ongrid p) (analysis_years p)
             (V5_ongrid_cashflows_length p) (V5_fc_ongrid_length p)
             (V5_fc_ongrid_pointwise p)).
  apply Hall. lia.
Qed.

Lemma X11_grid_series_nonincreasing_witness :
  0 <= electricity_price default_params /\
  0 <= annual_energy default_params /\
  0 <= inflation_rate default_params /\
  0 <= discount_rate default_params /\
  V5.npv_ongrid default_params <= 0.
Proof.
  assert (Hp : 0 <= electricity_price default_params)
    by (vm_compute; discriminate).
  assert (He : 0 <= annual_energy default_params)
    by (vm_compute; discriminate).
  assert (Hi : 0 <= inflation_rate default_params)
    by (vm_compute; discriminate).
  assert (Hd : 0 <= discount_rate default_params)
    by (vm_compute; discriminate).
  split; [exact Hp|]. split; [exact He|]. split; [exact Hi|].
  split; [exact Hd|].
  exact (proj2 (proj2 (proj2
    (X11_grid_series_nonincreasing default_params Hp He Hi Hd)))).
Defined.

(** X12: for a non-negative electricity price, annual energy and inflation
    rate, raising a non-negative discount rate never lowers the grid-only
    NPV: the outflows of later years weigh less. *)
Theorem X12_grid_npv_monotone_in_rate (p : Params) (d : Q) :
  0 <= electricity_price p -> 0 <= annual_energy p ->
  0 <= inflation_rate p ->
  0 <= discount_rate p -> discount_rate p < d ->
  V5.npv_ongrid p <= V5.npv_ongrid (set_discount_rate d p).
Proof.
  intros Hp He Hi Hd Hlt. unfold V5.npv_ongrid.
  rewrite V5_ongrid_cashflows_discount_rate.
  change (discount_rate (set_discount_rate d p)) with d.
  unfold V5.ongrid_cashflows. rewrite V5_ongrid_loop_eq. cbn [snd].
  rewrite <- (map_map (escalated_cost p) Qopp).
  unfold calculate_npv. cbn [npv_from Z.of_nat].
  rewrite !npv_from_opp, !pow_0_r.
  assert (Hpos : Forall (fun c => 0 <= c) (map (escalated_cost p) (years p))).
  { apply Forall_map, Forall_forall. intros y _.
    now apply escalated_cost_nonneg. }
  destruct (npv_from_two_rates (discount_rate p) d _ Hd Hlt Hpos 1%nat
              (le_n 1)) as [Hle _].
  lra.
Qed.

Lemma X12_grid_npv_monotone_in_rate_witness :
  0 <= electricity_price default_params /\
  0 <= annual_energy default_params /\
  0 <= inflation_rate default_params /\
  0 <= discount_rate default_params /\
  discount_rate default_params < 1 # 10 /\
  V5.npv_ongrid default_params
  <= V5.npv_ongrid (set_discount_rate (1 # 10) default_params).
Proof.
  assert (Hp : 0 <= electricity_price default_params)
    by (vm_compute; discriminate).
  assert (He : 0 <= annual_energy default_params)
    by (vm_compute; discriminate).
  assert (Hi : 0 <= inflation_rate default_params)
    by (vm_compute; discriminate).
  assert (Hd : 0 <= discount_rate default_params)
    by (vm_compute; discriminate).
  assert (Hlt : discount_rate default_params < 1 # 10)
    by (vm_compute; reflexivity).
  split; [exact Hp|]. split; [exact He|]. split; [exact Hi|].
  split; [exact Hd|]. split; [exact Hlt|].
  exact (X12_grid_npv_monotone_in_rate default_params (1 # 10)
           Hp He Hi Hd Hlt).
Defined.

(** ** The three scripts side by side *)

(** X13: the three scripts compute the same grid-only series: the
    discounted series and the table column of V3.py and of the two scripts
    of v4.py are identical, and so are the nominal series of the two
    scripts of v4.py. *)
Theorem X13_scripts_agree (p : Params) :
  V3.fc_ongrid p = V4.fc_ongrid p /\
  V4.fc_ongrid p = V5.fc_ongrid p /\
  V4.ongrid_cashflows p = V5.ongrid_cashflows p /\
  V3.results_ongrid p = V5.results_ongrid p.
Proof.
  assert (E34 : V3.fc_ongrid p = V4.fc_ongrid p).
  { unfold V3.fc_ongrid, V4.fc_ongrid.
    rewrite append_loop_map, V4_ongrid_loop_eq. reflexivity. }
  assert (E45 : V4.fc_ongrid p = V5.fc_ongrid p).
  { unfold V4.fc_ongrid, V5.fc_ongrid.
    rewrite V4_ongrid_loop_eq, V5_ongrid_loop_eq. reflexivity. }
  split; [exact E34|]. split; [exact E45|]. split.
  - unfold V4.ongrid_cashflows, V5.ongrid_cashflows.
    rewrite V4_ongrid_loop_eq, V5_ongrid_loop_eq. reflexivity.
  - unfold V3.results_ongrid, V5.results_ongrid. now rewrite E34, E45.
Qed.

Lemma V4_lengths (p : Params) :
  length (V4.slb_cashflows p) = S (analysis_years p) /\
  length (V4.fc_slb p) = S (analysis_years p) /\
  length (V4.ongrid_cashflows p) = S (analysis_years p) /\
  length (V4.fc_ongrid p) = S (analysis_years p).
Proof.
  unfold V4.slb_cashflows, V4.fc_slb, V4.ongrid_cashflows, V4.fc_ongrid.
  rewrite !add_last_length, V4_slb_loop_eq, V4_ongrid_loop_eq.
  cbn [fst snd length]. rewrite !length_map, years_length. auto.
Qed.

Lemma V4_series_year0 (p : Params) :
  (1 <= analysis_years p)%nat ->
  nth 0 (V4.fc_slb p) 0 = - slb_total_capex p /\
  nth 0 (V4.slb_cashflows p) 0 = - slb_total_capex p /\
  nth 0 (V4.fc_ongrid p) 0 = 0 /\
  nth 0 (V4.ongrid_cashflows p) 0 = 0.
Proof.
  intros HN. unfold V4.fc_slb, V4.slb_cashflows, V4.fc_ongrid,
    V4.ongrid_cashflows.
  rewrite !nth_add_last, V4_slb_loop_eq, V4_ongrid_loop_eq.
  cbn [fst snd length]. rewrite !length_map, years_length.
  destruct (Nat.eqb_spec 1 (S (analysis_years p))) as [E|_]; [lia|].
  repeat split.
Qed.

Lemma V4_series_nth (p : Params) (y : nat) :
  (1 <= y <= analysis_years p)%nat ->
  nth y (V4.fc_ongrid p) 0 =
    nth y (V4.ongrid_cashflows p) 0 / pow (1 + discount_rate p) (Z.of_nat y)
  /\
  nth y (V4.slb_cashflows p) 0 =
    (if (y =? analysis_years p)%nat
     then V4.cashflow p y + residual_value p else V4.cashflow p y)
  /\
  nth y (V4.fc_slb p) 0 =
    (if (y =? analysis_years p)%nat
     then V4.discounted_cashflow p y
          + residual_value p / pow (1 + discount_rate p)
                                   (Z.of_nat (analysis_years p))
     else V4.discounted_cashflow p y).
Proof.
  intros Hy. unfold V4.fc_ongrid, V4.ongrid_cashflows, V4.slb_cashflows,
    V4.fc_slb.
  rewrite !nth_add_last, V4_slb_loop_eq, V4_ongrid_loop_eq.
  cbn [fst snd length]. rewrite !length_map, years_length.
  unfold years. rewrite !nth_cons_map_seq by exact Hy.
  repeat split.
Qed.

(** X14: in the first script of v4.py too, with a horizon of at least one
    year, the discounted cash flow of year y is the nominal one divided by
    (1 + discount_rate)^y for the grid-only scenario in every year and for
    the SLB scenario in every year but the final one, the two entries of
    year 0 being the same value; in the final year of the SLB scenario the
    nominal entry is cashflow + residual value and the discounted entry
    cashflow / (1 + discount_rate)^y + residual value
    / (1 + discount_rate)^y. *)
Theorem X14_first_script_discounting (p : Params) (y : nat) :
  (1 <= analysis_years p)%nat ->
  (y <= analysis_years p)%nat ->
  nth y (V4.fc_ongrid p) 0 =
    (if (y =? 0)%nat then nth y (V4.ongrid_cashflows p) 0
     else nth y (V4.ongrid_cashflows p) 0
          / (1 + discount_rate p) ^ Z.of_nat y)
  /\
  nth y (V4.fc_slb p) 0 =
    (if (y =? 0)%nat then nth y (V4.slb_cashflows p) 0
     else if (y =? analysis_years p)%nat
     then V4.cashflow p y / (1 + discount_rate p) ^ Z.of_nat y
          + residual_value p / (1 + discount_rate p) ^ Z.of_nat y
     else nth y (V4.slb_cashflows p) 0
          / (1 + discount_rate p) ^ Z.of_nat y)
  /\
  nth (analysis_years p) (V4.slb_cashflows p) 0 =
    V4.cashflow p (analysis_years p) + residual_value p.
Proof.
  intros HN Hy.
  destruct (V4_series_year0 p HN) as (F0 & C0 & G0 & O0).
  assert (Hlast : nth (analysis_years p) (V4.slb_cashflows p) 0 =
                  V4.cashflow p (analysis_years p) + residual_value p).
  { destruct (V4_series_nth p (analysis_years p)) as (_ & E & _); [lia|].
    now rewrite Nat.eqb_refl in E. }
  destruct y as [|y].
  - cbn [Nat.eqb]. rewrite F0, C0, G0, O0. auto.
  - change (S y =? 0)%nat with false. cbv iota.
    destruct (V4_series_nth p (S y)) as (G & C & F); [lia|].
    split; [exact G|]. split; [|exact Hlast].
    rewrite F, C. destruct (S y =? analysis_years p)%nat eqn:E.
    + apply Nat.eqb_eq in E. rewrite <- E. reflexivity.
    + reflexivity.
Qed.

Lemma X14_first_script_discounting_witness :
  (1 <= analysis_years default_params)%nat /\
  (15 <= analysis_years default_params)%nat /\
  nth 15 (V4.slb_cashflows default_params) 0 =
    V4.cashflow default_params 15 + residual_value default_params.
Proof.
  assert (HN : (1 <= analysis_years default_params)%nat) by (vm_compute; lia).
  assert (Hy : (15 <= analysis_years default_params)%nat)
    by (vm_compute; lia).
  split; [exact HN|]. split; [exact Hy|].
  exact (proj2 (proj2
    (X14_first_script_discounting default_params 15 HN Hy))).
Defined.

(** X15: in both scripts of v4.py the nominal grid-only cash flow of every
    year 1..analysis_years is minus the escalated cost, the final year
    included (no residual value, no opex); in the first script the nominal
    SLB cash flow is the escalated cost minus the opex, plus the residual
    value in the final year. *)
Theorem X15_nominal_series_by_year (p : Params) (y : nat) :
  (1 <= y <= analysis_years p)%nat ->
  nth y (V5.ongrid_cashflows p) 0 = - spec_escalatedCost p y /\
  nth y (V4.ongrid_cashflows p) 0 = - spec_escalatedCost p y /\
  nth y (V4.slb_cashflows p) 0 =
    if (y =? analysis_years p)%nat
    then spec_escalatedCost p y - slb_opex p + residual_value p
    else spec_escalatedCost p y - slb_opex p.
Proof.
  intros Hy. split; [|split].
  - unfold V5.ongrid_cashflows. rewrite V5_ongrid_loop_eq. cbn [snd].
    unfold years. now rewrite nth_cons_map_seq by exact Hy.
  - unfold V4.ongrid_cashflows. rewrite V4_ongrid_loop_eq. cbn [snd].
    unfold years. now rewrite nth_cons_map_seq by exact Hy.
  - unfold V4.slb_cashflows. rewrite nth_add_last, V4_slb_loop_eq.
    cbn [snd length]. rewrite length_map, years_length.
    unfold years. rewrite nth_cons_map_seq by exact Hy. reflexivity.
Qed.

Lemma X15_nominal_series_by_year_witness :
  (1 <= 15 <= analysis_years default_params)%nat /\
  nth 15 (V5.ongrid_cashflows default_params) 0
    = - spec_escalatedCost default_params 15.
Proof.
  assert (Hy : (1 <= 15 <= analysis_years default_params)%nat)
    by (vm_compute; lia).
  split; [exact Hy|].
  exact (proj1 (X15_nominal_series_by_year default_params 15 Hy)).
Defined.

(** ** Payback year against the electricity price *)

(** X17: at a higher electricity price the SLB payback is never later,
    for a non-negative annual energy, energy for sale and inflation rate:
    the script adds the escalated cost to the SLB cash flow. *)
Theorem X17_payback_antitone_in_price (p : Params) (e : Q) :
  0 <= annual_energy p -> 0 <= V5.energy_for_sale_per_month p ->
  0 <= inflation_rate p ->
  electricity_price p <= e ->
  payback_le (V5.pb_slb (set_electricity_price e p)) (V5.pb_slb p).
Proof.
  intros He Hs Hi Hle. unfold V5.pb_slb, calculate_payback.
  apply payback_loop_mono; [|apply Qle_refl].
  unfold V5.slb_cashflows. rewrite !V5_slb_loop_eq. cbn [snd].
  apply add_last_Forall2_le. constructor; [apply Qle_refl|].
  apply map_Forall2_le. intros k.
  unfold V5.cashflow, escalated_cost, V5.escalated_revenue, V5.feed_in_tariff.
  change (electricity_price (set_electricity_price e p)) with e.
  change (inflation_rate (set_electricity_price e p)) with (inflation_rate p).
  change (annual_energy (set_electricity_price e p)) with (annual_energy p).
  change (V5.energy_for_sale_per_month (set_electricity_price e p))
    with (V5.energy_for_sale_per_month p).
  change (slb_opex (set_electricity_price e p)) with (slb_opex p).
  assert (HP : 0 <= pow (1 + inflation_rate p) (Z.of_nat k - 1))
    by (unfold pow; apply Qpower_0_le; lra).
  set (P := pow (1 + inflation_rate p) (Z.of_nat k - 1)) in *.
  set (A := annual_energy p) in *.
  set (S := V5.energy_for_sale_per_month p) in *.
  assert (H1 : electricity_price p * P * A <= e * P * A).
  { apply Qmult_le_compat_r; [|exact He].
    apply Qmult_le_compat_r; [exact Hle | exact HP]. }
  assert (H2 : (7 # 10) * electricity_price p * P * S * 12
               <= (7 # 10) * e * P * S * 12).
  { apply Qmult_le_compat_r; [|discriminate].
    apply Qmult_le_compat_r; [|exact Hs].
    apply Qmult_le_compat_r; [|exact HP].
    apply Qmult_le_l; [reflexivity | exact Hle]. }
  lra.
Qed.

Lemma X17_payback_antitone_in_price_witness :
  0 <= annual_energy small_capex_params /\
  0 <= V5.energy_for_sale_per_month small_capex_params /\
  0 <= inflation_rate small_capex_params /\
  electricity_price small_capex_params <= 1 # 2 /\
  payback_le (V5.pb_slb (set_electricity_price (1 # 2) small_capex_params))
             (V5.pb_slb small_capex_params).
Proof.
  assert (He : 0 <= annual_energy small_capex_params)
    by (vm_compute; discriminate).
  assert (Hs : 0 <= V5.energy_for_sale_per_month small_capex_params)
    by (vm_compute; discriminate).
  assert (Hi : 0 <= inflation_rate small_capex_params)
    by (vm_compute; discriminate).
  assert (Hle : electricity_price small_capex_params <= 1 # 2)
    by (vm_compute; discriminate).
  split; [exact He|]. split; [exact Hs|]. split; [exact Hi|].
  split; [exact Hle|].
  exact (X17_payback_antitone_in_price small_capex_params (1 # 2)
           He Hs Hi Hle).
Defined.

(** ** [calculate_crossover] on any two series *)

Lemma combine_nth_lt (a b : list Q) (j : nat) :
  (j < length a)%nat -> (j < length b)%nat ->
  nth j (combine a b) (0, 0) = (nth j a 0, nth j b 0).
Proof.
  revert b j. induction a as [|x a IH]; intros b j Ha Hb.
  - cbn in Ha; lia.
  - destruct b as [|y b]; [cbn in Hb; lia|].
    destruct j as [|j]; [reflexivity|].
    cbn [combine nth]. apply IH; cbn [length] in *; lia.
Qed.

(** X18: on any two series, of equal length or not, calculate_crossover
    looks only at the years both series have (zip stops at the shorter):
    it returns the smallest such year at which the first series strictly
    exceeds the second, and None exactly when there is none. *)
Theorem X18_calculate_crossover_contract (results_slb results_ongrid : list Q) :
  (forall k : nat,
      calculate_crossover results_slb results_ongrid = Some k <->
      (k < length results_slb)%nat /\ (k < length results_ongrid)%nat /\
      nth k results_ongrid 0 < nth k results_slb 0 /\
      (forall j, (j < k)%nat -> nth j results_slb 0 <= nth j results_ongrid 0))
  /\
  (calculate_crossover results_slb results_ongrid = None <->
   forall j, (j < length results_slb)%nat -> (j < length results_ongrid)%nat ->
             nth j results_slb 0 <= nth j results_ongrid 0).
Proof.
  unfold calculate_crossover.
  assert (Hlen : forall j,
            (j < length (combine results_slb results_ongrid))%nat <->
            (j < length results_slb)%nat /\ (j < length results_ongrid)%nat)
    by (intros j; rewrite length_combine; lia).
  split.
  - intros k. split.
    + intros H. apply crossover_loop_some in H.
      destruct H as (j & -> & Hj & Hgt & Hle). cbn [Nat.add].
      apply Hlen in Hj. destruct Hj as [Ha Hb].
      rewrite (combine_nth_lt _ _ j Ha Hb) in Hgt.
      repeat split; try assumption.
      intros j' Hj'. specialize (Hle j' Hj').
      rewrite combine_nth_lt in Hle by lia. exact Hle.
    + intros (Ha & Hb & Hgt & Hle).
      apply (crossover_loop_first _ 0%nat k).
      * apply Hlen. auto.
      * now rewrite combine_nth_lt.
      * intros j' Hj'. rewrite combine_nth_lt by lia. now apply Hle.
  - rewrite crossover_loop_none. split.
    + intros H j Ha Hb. specialize (H j (proj2 (Hlen j) (conj Ha Hb))).
      now rewrite combine_nth_lt in H.
    + intros H j Hj. apply Hlen in Hj. destruct Hj as [Ha Hb].
      rewrite combine_nth_lt by assumption. now apply H.
Qed.
